(** * NJ Transit DepartureVision scraper: a shallow embedding of [scraper.py]

    The development follows the structure of [NJTransitScraper]:
    - Python string operations used by the scraper ([lower], [strip],
      [replace], [in]) and the [os.path] helpers;
    - the queryable markup tree with [find] / [find_all];
    - [parse_occupancy], [scrape_departures], [get_current_file_date] and
      [save_to_csv], the latter over an explicit file-system state.

    Text is modelled as [string] (8-bit characters); Python integers that
    count things are [nat], calendar fields are [Z]. *)

From Stdlib Require Import ZArith Lia Ascii String List Bool.
From stdpp Require Import base strings list gmap.

Local Open Scope string_scope.
Local Open Scope list_scope.
Local Open Scope nat_scope.

(** ** Python string operations *)

Module PyStr.

Definition code (c : ascii) : nat := nat_of_ascii c.

(** [str.isspace] on the characters below 256. *)
Definition is_space (c : ascii) : bool :=
  let n := code c in
  ((9 <=? n) && (n <=? 13)) || ((28 <=? n) && (n <=? 32))
  || (n =? 133) || (n =? 160).

(** Capital letters below 256: A-Z and the Latin-1 capitals. *)
Definition is_upper (c : ascii) : bool :=
  let n := code c in
  ((65 <=? n) && (n <=? 90))
  || ((192 <=? n) && (n <=? 222) && negb (n =? 215)).

Definition lower_char (c : ascii) : ascii :=
  if is_upper c then ascii_of_nat (code c + 32) else c.

(** [s.lower()] *)
Fixpoint lower (s : string) : string :=
  match s with
  | EmptyString => EmptyString
  | String c r => String (lower_char c) (lower r)
  end.

Definition is_empty (s : string) : bool :=
  match s with EmptyString => true | String _ _ => false end.

(** Truth value of a [str]: the empty string is falsy. *)
Definition truthy (s : string) : bool := negb (is_empty s).

(** [sub in s] *)
Fixpoint contains (sub s : string) : bool :=
  match s with
  | EmptyString => is_empty sub
  | String _ r => String.prefix sub s || contains sub r
  end.

Fixpoint lstrip (s : string) : string :=
  match s with
  | EmptyString => EmptyString
  | String c r => if is_space c then lstrip r else s
  end.

Fixpoint rstrip (s : string) : string :=
  match s with
  | EmptyString => EmptyString
  | String c r =>
      let r' := rstrip r in
      if is_space c && is_empty r' then EmptyString else String c r'
  end.

(** [s.strip()] *)
Definition strip (s : string) : string := rstrip (lstrip s).

(** [s.replace(old, new)] for a non-empty [old]: occurrences are replaced
    from the left, without overlap; [skip] counts the characters of a
    matched occurrence that are still to be passed over. *)
Fixpoint replace_from (old new : string) (skip : nat) (s : string) : string :=
  match s with
  | EmptyString => EmptyString
  | String c r =>
      match skip with
      | S k => replace_from old new k r
      | O =>
          if String.prefix old s
          then new +:+ replace_from old new (String.length old - 1) r
          else String c (replace_from old new 0 r)
      end
  end.

Definition replace (old new s : string) : string := replace_from old new 0 s.

(** Whitespace-separated words of [s] ([s.split()]); [words_aux] returns
    the word that starts at the head of [s] and the words after it. *)
Fixpoint words_aux (s : string) : string * list string :=
  match s with
  | EmptyString => (EmptyString, [])
  | String c r =>
      let '(w, ws) := words_aux r in
      if is_space c
      then (EmptyString, if is_empty w then ws else w :: ws)
      else (String c w, ws)
  end.

Definition words (s : string) : list string :=
  let '(w, ws) := words_aux s in if is_empty w then ws else w :: ws.

(** [sep.join(l)] *)
Fixpoint join (sep : string) (l : list string) : string :=
  match l with
  | [] => EmptyString
  | [x] => x
  | x :: r => x +:+ sep +:+ join sep r
  end.

Fixpoint concat_all (l : list string) : string :=
  match l with
  | [] => EmptyString
  | x :: r => x +:+ concat_all r
  end.

Definition digit (n : nat) : ascii := ascii_of_nat (48 + n mod 10).

(** Decimal numeral of a natural number, most significant digit first. *)
Fixpoint digits_from (fuel n : nat) (acc : string) : string :=
  let acc' := String (digit n) acc in
  match fuel with
  | O => acc'
  | S f => if n / 10 =? 0 then acc' else digits_from f (n / 10) acc'
  end.

(** [str(n)] for a non-negative integer. *)
Definition str_of_nat (n : nat) : string := digits_from n n EmptyString.

(** Left padding with zeros up to [width] characters (the [%02d] and
    [%04d] conversions of [strftime]). *)
Definition zfill (width : nat) (s : string) : string :=
  PyStr.concat_all (List.repeat "0" (width - String.length s)) +:+ s.

(** Small letters below 256 (with the two ordinal indicators and the micro
    sign, which count as lower case). *)
Definition is_lower (c : ascii) : bool :=
  let n := code c in
  ((97 <=? n) && (n <=? 122))
  || ((223 <=? n) && (n <=? 255) && negb (n =? 247))
  || (n =? 170) || (n =? 181) || (n =? 186).

Definition is_cased (c : ascii) : bool := is_upper c || is_lower c.

(** The capital of a character; the sharp s, the y with diaeresis and the
    micro sign, whose capitals are not 8-bit characters, are left alone. *)
Definition title_char (c : ascii) : ascii :=
  let n := code c in
  if ((97 <=? n) && (n <=? 122)) || ((224 <=? n) && (n <=? 254) && negb (n =? 247))
  then ascii_of_nat (n - 32) else c.

(** [s.title()]: a letter that follows a cased character is put in lower
    case, any other letter in upper case. *)
Fixpoint title_from (previous_is_cased : bool) (s : string) : string :=
  match s with
  | EmptyString => EmptyString
  | String c r =>
      String (if previous_is_cased then lower_char c else title_char c)
             (title_from (is_cased c) r)
  end.

Definition title (s : string) : string := title_from false s.

End PyStr.

(** ** The markup tree (what [BeautifulSoup] hands to the scraper) *)

#[warnings="-register-all"]
Inductive node : Type :=
| NavigableString (s : string)
| Tag (name : string) (attrs : list (string * string)) (contents : list node).

(** What a query asks of one attribute: [True] (the attribute is there) or a
    given value. *)
Inductive attr_query : Type :=
| IsTrue
| Is (v : string).

Module Soup.

(** All nodes below [n], in document order. *)
Fixpoint descendants (n : node) : list node :=
  match n with
  | NavigableString _ => []
  | Tag _ _ cs =>
      (fix walk (l : list node) : list node :=
         match l with
         | [] => []
         | c :: l' => c :: descendants c ++ walk l'
         end) cs
  end.

Fixpoint lookup_attr (k : string) (attrs : list (string * string)) : option string :=
  match attrs with
  | [] => None
  | (k', v) :: r => if String.eqb k k' then Some v else lookup_attr k r
  end.

(** [tag.get(k, default)] *)
Definition get (k default : string) (n : node) : string :=
  match n with
  | NavigableString _ => default
  | Tag _ attrs _ =>
      match lookup_attr k attrs with Some v => v | None => default end
  end.

(** The [class] attribute is a list of tokens: a wanted value matches one
    token or the tokens joined by single spaces. *)
Definition class_matches (want v : string) : bool :=
  let toks := PyStr.words v in
  existsb (String.eqb want) toks || String.eqb want (PyStr.join " " toks).

Definition attr_matches (attrs : list (string * string))
    (q : string * attr_query) : bool :=
  match lookup_attr (fst q) attrs with
  | None => false
  | Some v =>
      match snd q with
      | IsTrue => true
      | Is want =>
          if String.eqb (fst q) "class" then class_matches want v
          else String.eqb v want
      end
  end.

Definition tag_matches (name : string) (qs : list (string * attr_query))
    (n : node) : bool :=
  match n with
  | NavigableString _ => false
  | Tag nm attrs _ => String.eqb nm name && forallb (attr_matches attrs) qs
  end.

(** [n.find_all(name, attrs)] *)
Definition find_all (name : string) (qs : list (string * attr_query))
    (n : node) : list node :=
  List.filter (tag_matches name qs) (descendants n).

(** [n.find(name, attrs)]: the first match, or [None]. *)
Definition find (name : string) (qs : list (string * attr_query))
    (n : node) : option node :=
  head (find_all name qs n).

Definition strings_of (n : node) : list string :=
  flat_map (fun d => match d with NavigableString s => [s] | Tag _ _ _ => [] end)
           (descendants n).

(** [n.text] *)
Definition text (n : node) : string :=
  match n with
  | NavigableString s => s
  | Tag _ _ _ => PyStr.concat_all (strings_of n)
  end.

(** [n.find(text=lambda t: t and label in t)] *)
Definition find_text (label : string) (n : node) : option string :=
  head (List.filter (fun t => PyStr.truthy t && PyStr.contains label t) (strings_of n)).

End Soup.

(** ** [parse_occupancy] *)

Record occupancy_info : Type := mk_occupancy {
  total_sections : nat;
  light : nat;
  medium : nat;
  heavy : nat;
  no_data : nat
}.

Definition LIGHT_STYLE : string := "background-color: rgb(11, 102, 35)".
Definition MEDIUM_STYLE : string := "background-color: rgb(255, 193, 7)".
Definition HEAVY_STYLE : string := "background-color: rgb(220, 53, 69)".

Definition OCCUPANCY_LIST_CLASS : string :=
  "list-inline d-inline-block align-self-end m-0 cur--pointer".

(** The body of the inner loop: one dot bumps one counter. *)
Definition count_dot (info : occupancy_info) (dot : node) : occupancy_info :=
  let style := Soup.get "style" "" dot in
  if PyStr.contains LIGHT_STYLE style then
    mk_occupancy (total_sections info) (light info + 1) (medium info) (heavy info) (no_data info)
  else if PyStr.contains MEDIUM_STYLE style then
    mk_occupancy (total_sections info) (light info) (medium info + 1) (heavy info) (no_data info)
  else if PyStr.contains HEAVY_STYLE style then
    mk_occupancy (total_sections info) (light info) (medium info) (heavy info + 1) (no_data info)
  else
    mk_occupancy (total_sections info) (light info) (medium info) (heavy info) (no_data info + 1).

Definition section_dots (section : node) : list node :=
  Soup.find_all "li" [("data-v-8927eb98", IsTrue)] section.

Definition count_section (info : occupancy_info) (section : node) : occupancy_info :=
  fold_left count_dot (section_dots section) info.

Definition find_occupancy_section (item : node) : option node :=
  Soup.find "ol" [("data-v-5d9f6349", IsTrue); ("class", Is OCCUPANCY_LIST_CLASS)] item.

Definition occupancy_sections (occupancy_section : node) : list node :=
  Soup.find_all "li" [("data-v-b5fd45da", IsTrue)] occupancy_section.

Definition empty_occupancy : occupancy_info := mk_occupancy 0 0 0 0 0.

Definition parse_occupancy (item : node) : occupancy_info :=
  let occupancy_info := empty_occupancy in
  match find_occupancy_section item with
  | None => occupancy_info
  | Some occupancy_section =>
      let sections := occupancy_sections occupancy_section in
      let occupancy_info :=
        mk_occupancy (List.length sections) (light occupancy_info)
          (medium occupancy_info) (heavy occupancy_info) (no_data occupancy_info) in
      fold_left count_section sections occupancy_info
  end.

(** The four classes a dot can fall in, and the class the [if]/[elif] chain
    of [parse_occupancy] picks for a dot. *)
Inductive level : Type := Light | Medium | Heavy | NoData.

Definition level_eqb (a b : level) : bool :=
  match a, b with
  | Light, Light | Medium, Medium | Heavy, Heavy | NoData, NoData => true
  | _, _ => false
  end.

Definition dot_level (dot : node) : level :=
  let style := Soup.get "style" "" dot in
  if PyStr.contains LIGHT_STYLE style then Light
  else if PyStr.contains MEDIUM_STYLE style then Medium
  else if PyStr.contains HEAVY_STYLE style then Heavy
  else NoData.

Definition count_level (lv : level) (dots : list node) : nat :=
  List.length (List.filter (fun d => level_eqb (dot_level d) lv) dots).

(** The sections [parse_occupancy] walks through for an entry, and the dots
    it visits (section by section). *)
Definition item_sections (item : node) : list node :=
  match find_occupancy_section item with
  | None => []
  | Some occupancy_section => occupancy_sections occupancy_section
  end.

Definition item_dots (item : node) : list node :=
  flat_map section_dots (item_sections item).

Definition occupancy_sum (r : occupancy_info) : nat :=
  light r + medium r + heavy r + no_data r.

(** ** Exceptions

    Code that can raise returns a [result]; [try_except] is the
    [try: ... except Exception: ...] block. *)

Inductive exception : Type :=
| AttributeError
| RequestException
| OverflowError
| FileExistsError
| FileNotFoundError
| IsADirectoryError.

Inductive result (A : Type) : Type :=
| Ok (a : A)
| Raise (e : exception).

Arguments Ok {A} a.
Arguments Raise {A} e.

#[global] Instance result_ret : MRet result := fun A a => Ok a.

#[global] Instance result_bind : MBind result := fun A B k m =>
  match m with
  | Ok a => k a
  | Raise e => Raise e
  end.

Definition try_except {A : Type} (body : result A) (handler : exception -> result A)
  : result A :=
  match body with
  | Ok a => Ok a
  | Raise e => handler e
  end.

(** ** Local wall-clock time ([datetime.datetime.now(self.eastern_tz)]) *)

Record datetime : Type := mk_datetime {
  year : Z;
  month : Z;
  day : Z;
  hour : Z;
  minute : Z;
  second : Z
}.

Module Calendar.

Local Open Scope Z_scope.

Definition is_leap (y : Z) : bool :=
  (y mod 4 =? 0) && (negb (y mod 100 =? 0) || (y mod 400 =? 0)).

(** The table [_DAYS_IN_MONTH]. *)
Definition DAYS_IN_MONTH (m : Z) : Z :=
  if m =? 2 then 28
  else if (m =? 4) || (m =? 6) || (m =? 9) || (m =? 11) then 30
  else 31.

Definition days_in_month (y m : Z) : Z :=
  if (m =? 2) && is_leap y then 29 else DAYS_IN_MONTH m.

(** Dates that [datetime] can hold: years 1 to 9999. *)
Definition valid_date (y m d : Z) : Prop :=
  1 <= y <= 9999 /\ 1 <= m <= 12 /\ 1 <= d <= days_in_month y m.

Definition valid (t : datetime) : Prop :=
  valid_date (year t) (month t) (day t)
  /\ 0 <= hour t <= 23 /\ 0 <= minute t <= 59 /\ 0 <= second t <= 59.

(** Number of days before January 1st of year [y]. *)
Definition days_before_year (y : Z) : Z :=
  let y' := y - 1 in y' * 365 + y' / 4 - y' / 100 + y' / 400.

(** The table [_DAYS_BEFORE_MONTH]. *)
Definition DAYS_BEFORE_MONTH (m : Z) : Z :=
  match m with
  | 1 => 0 | 2 => 31 | 3 => 59 | 4 => 90 | 5 => 120 | 6 => 151
  | 7 => 181 | 8 => 212 | 9 => 243 | 10 => 273 | 11 => 304 | 12 => 334
  | _ => 0
  end.

(** Number of days in year [y] before the first day of month [m]. *)
Definition days_before_month (y m : Z) : Z :=
  DAYS_BEFORE_MONTH m + (if (2 <? m) && is_leap y then 1 else 0).

(** [date.toordinal()]: January 1st of year 1 is day 1. *)
Definition toordinal (t : datetime) : Z :=
  days_before_year (year t) + days_before_month (year t) (month t) + day t.

(** [t - datetime.timedelta(days=1)]: the same wall-clock time on the day
    before; [OverflowError] below the first representable date. *)
Definition minus_one_day (t : datetime) : result datetime :=
  if 1 <? day t then
    Ok (mk_datetime (year t) (month t) (day t - 1) (hour t) (minute t) (second t))
  else if 1 <? month t then
    Ok (mk_datetime (year t) (month t - 1) (days_in_month (year t) (month t - 1))
          (hour t) (minute t) (second t))
  else if 1 <? year t then
    Ok (mk_datetime (year t - 1) 12 31 (hour t) (minute t) (second t))
  else Raise OverflowError.

Definition fmt (width : nat) (z : Z) : string :=
  PyStr.zfill width (PyStr.str_of_nat (Z.to_nat z)).

(** [t.strftime('%Y-%m-%d')], the year written with four digits (as the C
    library does from year 1000 on). *)
Definition strftime_date (t : datetime) : string :=
  fmt 4 (year t) +:+ "-" +:+ fmt 2 (month t) +:+ "-" +:+ fmt 2 (day t).

(** [t.strftime('%Y-%m-%d %H:%M:%S')] *)
Definition strftime_timestamp (t : datetime) : string :=
  strftime_date t +:+ " " +:+ fmt 2 (hour t) +:+ ":" +:+ fmt 2 (minute t)
  +:+ ":" +:+ fmt 2 (second t).

End Calendar.

(** ** [os.path] (POSIX flavour) *)

Module OsPath.

Definition is_sep (c : ascii) : bool := Ascii.eqb c "/"%char.

Fixpoint ends_with_sep (p : string) : bool :=
  match p with
  | EmptyString => false
  | String c EmptyString => is_sep c
  | String _ r => ends_with_sep r
  end.

Definition starts_with_sep (p : string) : bool :=
  match p with
  | EmptyString => false
  | String c _ => is_sep c
  end.

(** [os.path.join(a, b)] *)
Definition join (a b : string) : string :=
  if starts_with_sep b then b
  else if PyStr.is_empty a || ends_with_sep a then a +:+ b
  else a +:+ "/" +:+ b.

(** [(p[:i], p[i:])] for [i = p.rfind('/') + 1]. *)
Fixpoint split_at_last_sep (p : string) : string * string :=
  match p with
  | EmptyString => (EmptyString, EmptyString)
  | String c r =>
      let '(h, t) := split_at_last_sep r in
      if negb (PyStr.is_empty h) then (String c h, t)
      else if is_sep c then (String c EmptyString, r)
      else (EmptyString, String c r)
  end.

Fixpoint all_sep (p : string) : bool :=
  match p with
  | EmptyString => true
  | String c r => is_sep c && all_sep r
  end.

Fixpoint rstrip_sep (p : string) : string :=
  match p with
  | EmptyString => EmptyString
  | String c r =>
      let r' := rstrip_sep r in
      if is_sep c && PyStr.is_empty r' then EmptyString else String c r'
  end.

(** [os.path.dirname(p)] *)
Definition dirname (p : string) : string :=
  let head := fst (split_at_last_sep p) in
  if PyStr.truthy head && negb (all_sep head) then rstrip_sep head else head.

(** [os.path.basename(p)] *)
Definition basename (p : string) : string := snd (split_at_last_sep p).

(** The path itself preceded by its ancestors, outermost first:
    [a/b/c] gives [a], [a/b], [a/b/c]. *)
Fixpoint chain_from (done rest : string) : list string :=
  match rest with
  | EmptyString => [done]
  | String c r =>
      if is_sep c then done :: chain_from (done +:+ "/") r
      else chain_from (done +:+ String c EmptyString) r
  end.

Definition chain (p : string) : list string :=
  List.filter (fun q => PyStr.truthy q) (chain_from EmptyString p).

End OsPath.

(** ** [scrape_departures] *)

Record DepartureRecord : Type := mk_departure {
  timestamp : string;
  station : string;
  destination : string;
  line : string;
  train_number : string;
  departure_time : string;
  status : string;
  track : string;
  car_sections : nat;
  occupancy_light : nat;
  occupancy_medium : nat;
  occupancy_heavy : nat;
  occupancy_no_data : nat
}.

(** [found.text] where [found] is the value of a [find]: reading [.text] of
    [None] raises [AttributeError]. *)
Definition text_of (found : option node) : result string :=
  match found with
  | Some n => Ok (Soup.text n)
  | None => Raise AttributeError
  end.

(** [found.text.strip() if found else ''] *)
Definition text_or_empty (found : option node) : string :=
  match found with
  | Some n => PyStr.strip (Soup.text n)
  | None => EmptyString
  end.

(** [t.strip().replace(label, '').strip() if t else ''] for the text node
    found by scanning for [label]. *)
Definition labelled_value (label : string) (item : node) : string :=
  match Soup.find_text label item with
  | Some t => PyStr.strip (PyStr.replace label EmptyString (PyStr.strip t))
  | None => EmptyString
  end.

(** The guard of the [continue]:
    [self.destination_filter and
     self.destination_filter.lower() not in destination.lower()]. *)
Definition filtered_out (destination_filter : option string) (destination : string)
  : bool :=
  match destination_filter with
  | None => false
  | Some f =>
      PyStr.truthy f && negb (PyStr.contains (PyStr.lower f) (PyStr.lower destination))
  end.

Definition item_destination (item : node) : result string :=
  d ← text_of (Soup.find "strong" [("data-v-403a649a", IsTrue)] item);
  mret (PyStr.strip d).

Definition item_line (item : node) : result string :=
  l ← text_of (Soup.find "span" [("data-v-403a649a", IsTrue)] item);
  mret (PyStr.strip l).

(** The part of the loop body after the filter: the remaining fields, the
    occupancy and the record. *)
Definition build_record (now : datetime) (station destination : string) (item : node)
  : result DepartureRecord :=
  line ← item_line item;
  let train_number := labelled_value "Train" item in
  let departure_time := text_or_empty (Soup.find "strong" [("class", Is "h2")] item) in
  let status := text_or_empty (Soup.find "strong" [("class", Is "h3")] item) in
  let track := labelled_value "Track" item in
  let occupancy := parse_occupancy item in
  let timestamp := Calendar.strftime_timestamp now in
  mret (mk_departure timestamp station destination line train_number
          departure_time status track
          (total_sections occupancy) (light occupancy) (medium occupancy)
          (heavy occupancy) (no_data occupancy)).

(** One pass through the body of the [for item in ...] loop, before the
    inner [except]: [Ok None] is the [continue] of the filter, [Ok (Some r)]
    the record that is appended. *)
Definition scrape_item (destination_filter : option string) (now : datetime)
    (station : string) (item : node) : result (option DepartureRecord) :=
  destination ← item_destination item;
  if filtered_out destination_filter destination then mret None
  else r ← build_record now station destination item; mret (Some r).

(** The elements of a list with their positions, the first one at [k]. *)
Fixpoint enumerate_from {A : Type} (k : nat) (l : list A) : list (nat * A) :=
  match l with
  | [] => []
  | x :: r => (k, x) :: enumerate_from (S k) r
  end.

Definition enumerate {A : Type} (l : list A) : list (nat * A) := enumerate_from 0 l.

(** The loop body with its [except Exception: ... continue], for the entry
    at position [i] of the page.  The clock is read inside the loop, once
    for each entry that gets as far as its record: [clock i] is what
    [datetime.datetime.now] returns for the entry at position [i]. *)
Definition scrape_step (destination_filter : option string) (clock : nat -> datetime)
    (station : string) (departures : list DepartureRecord) (entry : nat * node)
  : list DepartureRecord :=
  match scrape_item destination_filter (clock (fst entry)) station (snd entry) with
  | Ok (Some r) => departures ++ [r]
  | Ok None => departures
  | Raise _ => departures
  end.

Definition departure_items (soup : node) : list node :=
  Soup.find_all "li" [("data-v-403a649a", IsTrue); ("class", Is "border")] soup.

(** [scrape_departures(url, station)].  [web url] stands for the three
    calls [requests.get], [raise_for_status] and [BeautifulSoup(...)]: the
    parsed page, or the exception of a failed fetch.  [clock] gives the
    readings of the clock, entry by entry. *)
Definition scrape_departures (destination_filter : option string)
    (web : string -> result node) (clock : nat -> datetime) (url station : string)
  : result (list DepartureRecord) :=
  try_except
    (soup ← web url;
     mret (fold_left (scrape_step destination_filter clock station)
             (enumerate (departure_items soup)) []))
    (fun _ => mret []).

(** ** [get_current_file_date] *)

Definition get_current_file_date (now : datetime) : result string :=
  now ← (if (hour now <? 4)%Z then Calendar.minus_one_day now else mret now);
  mret (OsPath.join "departures" (Calendar.strftime_date now)).

(** ** The file system and [save_to_csv] *)

(** A path names a directory or a CSV file; a file is the list of the rows
    written to it, each row the list of its cells. *)
Inductive fs_node : Type :=
| Dir
| File (rows : list (list string)).

Inductive io_event : Type :=
| EvMkdir (p : string)
| EvStat (p : string)
| EvCreate (p : string)
| EvAppend (p : string).

Record world : Type := mk_world {
  fs : gmap string fs_node;
  trace : list io_event
}.

Definition log (e : io_event) (w : world) : world :=
  mk_world (fs w) (trace w ++ [e]).

Definition set_fs (m : gmap string fs_node) (w : world) : world :=
  mk_world m (trace w).

Fixpoint makedirs_chain (ps : list string) (m : gmap string fs_node)
  : result (gmap string fs_node) :=
  match ps with
  | [] => Ok m
  | p :: r =>
      match m !! p with
      | None => makedirs_chain r (<[p := Dir]> m)
      | Some Dir => makedirs_chain r m
      | Some (File _) => Raise FileExistsError
      end
  end.

(** [os.makedirs(directory, exist_ok=True)] *)
Definition makedirs (directory : string) (w : world) : result world :=
  let w := log (EvMkdir directory) w in
  if PyStr.is_empty directory then Raise FileNotFoundError
  else m ← makedirs_chain (OsPath.chain directory) (fs w); mret (set_fs m w).

(** [os.path.exists(p)] *)
Definition path_exists (p : string) (w : world) : bool * world :=
  (match fs w !! p with Some _ => true | None => false end, log (EvStat p) w).

Definition parent_is_dir (p : string) (m : gmap string fs_node) : bool :=
  let d := OsPath.dirname p in
  PyStr.is_empty d || match m !! d with Some Dir => true | _ => false end.

Definition COLUMNS : list string :=
  ["timestamp"; "station"; "destination"; "line"; "train_number";
   "departure_time"; "status"; "track"; "car_sections"; "occupancy_light";
   "occupancy_medium"; "occupancy_heavy"; "occupancy_no_data"].

(** The cells of the row [to_csv] writes for one record. *)
Definition row_of (r : DepartureRecord) : list string :=
  [timestamp r; station r; destination r; line r; train_number r;
   departure_time r; status r; track r;
   PyStr.str_of_nat (car_sections r); PyStr.str_of_nat (occupancy_light r);
   PyStr.str_of_nat (occupancy_medium r); PyStr.str_of_nat (occupancy_heavy r);
   PyStr.str_of_nat (occupancy_no_data r)].

(** [pd.DataFrame(departures)]: one row per record. *)
Definition DataFrame (departures : list DepartureRecord) : list (list string) :=
  map row_of departures.

(** [df.to_csv(filename, index=False)]: the file is created (or truncated)
    and receives the header and the rows. *)
Definition to_csv_create (filename : string) (df : list (list string)) (w : world)
  : result world :=
  let w := log (EvCreate filename) w in
  match fs w !! filename with
  | Some Dir => Raise IsADirectoryError
  | _ =>
      if parent_is_dir filename (fs w)
      then mret (set_fs (<[filename := File (COLUMNS :: df)]> (fs w)) w)
      else Raise FileNotFoundError
  end.

(** [df.to_csv(filename, mode='a', header=False, index=False)]: the rows
    go after what the file holds. *)
Definition to_csv_append (filename : string) (df : list (list string)) (w : world)
  : result world :=
  let w := log (EvAppend filename) w in
  match fs w !! filename with
  | Some Dir => Raise IsADirectoryError
  | Some (File old) => mret (set_fs (<[filename := File (old ++ df)]> (fs w)) w)
  | None =>
      if parent_is_dir filename (fs w)
      then mret (set_fs (<[filename := File df]> (fs w)) w)
      else Raise FileNotFoundError
  end.

Definition csv_name (date : string) : string :=
  "departures_" +:+ OsPath.basename date +:+ ".csv".

Definition save_to_csv (now : datetime) (departures : list DepartureRecord)
    (w : world) : result world :=
  match departures with
  | [] => mret w
  | _ :: _ =>
      date ← get_current_file_date now;
      let directory := OsPath.dirname date in
      let filename := OsPath.join directory (csv_name date) in
      w ← makedirs directory w;
      let df := DataFrame departures in
      let '(present, w) := path_exists filename w in
      if present then to_csv_append filename df w
      else to_csv_create filename df w
  end.

(** ** [run] *)

(** The table [URLS], in the order it is written. *)
Definition URLS : list (string * string) :=
  [("secaucus_upper", "https://www.njtransit.com/dv-to/Secaucus%20Junction%20Upper%20Level");
   ("secaucus_lower", "https://www.njtransit.com/dv-to/Secaucus%20Junction%20Lower%20Level");
   ("newark", "https://www.njtransit.com/dv-to/Newark%20Penn%20Station");
   ("watsessing", "https://www.njtransit.com/dv-to/Watsessing%20Avenue%20Station");
   ("maplewood", "https://www.njtransit.com/dv-to/Maplewood%20Station")].

(** [station_key.replace('_', ' ').title()] *)
Definition station_name (station_key : string) : string :=
  PyStr.title (PyStr.replace "_" " " station_key).

(** The loop of [run] over the stations that are left, [all_departures]
    being the list built so far.  [times url] gives the readings of the
    clock while the page at [url] is scraped, entry by entry. *)
Fixpoint run_stations (destination_filter : option string)
    (web : string -> result node) (times : string -> nat -> datetime)
    (stations : list (string * string)) (all_departures : list DepartureRecord)
  : result (list DepartureRecord) :=
  match stations with
  | [] => Ok all_departures
  | (station_key, url) :: rest =>
      departures ← scrape_departures destination_filter web (times url) url
                     (station_name station_key);
      run_stations destination_filter web times rest (all_departures ++ departures)
  end.

(** [run()]; [save_time] is the reading of the clock in [save_to_csv]. *)
Definition run (destination_filter : option string) (web : string -> result node)
    (times : string -> nat -> datetime) (save_time : datetime) (w : world)
  : result world :=
  all_departures ← run_stations destination_filter web times URLS [];
  save_to_csv save_time all_departures w.

(** ** Notions used to state the properties *)

(** Sum of the four class counters of a record. *)
Definition record_sum (r : DepartureRecord) : nat :=
  occupancy_light r + occupancy_medium r + occupancy_heavy r + occupancy_no_data r.

(** What one entry adds to the list of a page: its record, or nothing when
    it is filtered out or its extraction raises. *)
Definition kept (destination_filter : option string) (now : datetime)
    (station : string) (item : node) : list DepartureRecord :=
  match scrape_item destination_filter now station item with
  | Ok (Some r) => [r]
  | Ok None => []
  | Raise _ => []
  end.

(** The list the loop builds from a list of entries, [clock i] being the
    reading of the clock for the entry at position [i] of that list. *)
Definition collect (destination_filter : option string) (clock : nat -> datetime)
    (station : string) (items : list node) : list DepartureRecord :=
  fold_left (scrape_step destination_filter clock station) (enumerate items) [].

(** What the entry at position [fst entry] adds to the list of a page. *)
Definition kept_at (destination_filter : option string) (clock : nat -> datetime)
    (station : string) (entry : nat * node) : list DepartureRecord :=
  kept destination_filter (clock (fst entry)) station (snd entry).

(** The calendar date of a moment. *)
Definition date_of (t : datetime) : Z * Z * Z := (year t, month t, day t).

(** The service day of a moment, as [get_current_file_date] computes it
    before formatting: the day before when the hour is below 4. *)
Definition service_day (now : datetime) : result datetime :=
  if (hour now <? 4)%Z then Calendar.minus_one_day now else Ok now.

(** Number of rows of a file equal to [row]. *)
Definition count_rows (row : list string) (rows : list (list string)) : nat :=
  List.length (List.filter (fun r => bool_decide (r = row)) rows).

(** Several runs of the writer, one after the other, on the same file
    system: each run has its clock reading and its records. *)
Fixpoint save_runs (runs : list (datetime * list DepartureRecord)) (w : world)
  : result world :=
  match runs with
  | [] => Ok w
  | (now, departures) :: rest => w' ← save_to_csv now departures w; save_runs rest w'
  end.

(** The date string of the service day of a moment ([YYYY-MM-DD]). *)
Definition bucket (now : datetime) : result string :=
  b ← service_day now; mret (Calendar.strftime_date b).

(** The file the writer uses for the service day [date]. *)
Definition daily_file (date : string) : string :=
  "departures/departures_" +:+ date +:+ ".csv".

(** The world after a write to the daily file: the directory is there, the
    file holds [content], and three more operations are on the trace. *)
Definition written (d : string) (content : list (list string)) (last : io_event)
    (w : world) : world :=
  mk_world (<[daily_file d := File content]> (<["departures" := Dir]> (fs w)))
           (trace w ++ [EvMkdir "departures"; EvStat (daily_file d); last]).

(** A run that falls in the service day [d] and has records to write. *)
Definition in_bucket (d : string) (run : datetime * list DepartureRecord) : Prop :=
  bucket (fst run) = Ok d /\ snd run <> [].

(** Strings all of whose characters satisfy [P]; decimal digits; characters
    other than the path separator. *)
Fixpoint all_chars (P : ascii -> bool) (s : string) : bool :=
  match s with
  | EmptyString => true
  | String c r => P c && all_chars P r
  end.

Definition is_digit (c : ascii) : bool :=
  (48 <=? PyStr.code c) && (PyStr.code c <=? 57).

Definition not_sep (c : ascii) : bool := negb (OsPath.is_sep c).

(** A string that [strip] leaves as it is, on either side. *)
Definition trimmed (s : string) : Prop := PyStr.lstrip s = s /\ PyStr.rstrip s = s.

(** Whether an entry gives a record: its destination and line elements are
    there and the filter lets the destination through. *)
Definition yields_record (destination_filter : option string) (item : node) : bool :=
  match item_destination item, item_line item with
  | Ok destination, Ok _ => negb (filtered_out destination_filter destination)
  | _, _ => false
  end.

(** Whether the style of a dot shows one of the three known colours. *)
Definition known_colour (dot : node) : bool :=
  let style := Soup.get "style" "" dot in
  PyStr.contains LIGHT_STYLE style || PyStr.contains MEDIUM_STYLE style
  || PyStr.contains HEAVY_STYLE style.

(** The number a string of decimal digits stands for. *)
Fixpoint digits_value (acc : nat) (s : string) : nat :=
  match s with
  | EmptyString => acc
  | String c r => digits_value (acc * 10 + (PyStr.code c - 48)) r
  end.

(** The part of [s] before its first hyphen and the part after it. *)
Fixpoint split_hyphen (s : string) : string * string :=
  match s with
  | EmptyString => (EmptyString, EmptyString)
  | String c r =>
      if Ascii.eqb c "-"%char then (EmptyString, r)
      else let '(a, b) := split_hyphen r in (String c a, b)
  end.

(** Reading back a date written as [%Y-%m-%d]. *)
Definition parse_date (s : string) : nat * nat * nat :=
  let '(y, r) := split_hyphen s in
  let '(m, d) := split_hyphen r in
  (digits_value 0 y, digits_value 0 m, digits_value 0 d).

(** What one station adds to a run: the records of its page, or nothing
    when the page cannot be fetched. *)
Definition station_records (destination_filter : option string)
    (web : string -> result node) (times : string -> nat -> datetime)
    (entry : string * string) : list DepartureRecord :=
  match web (snd entry) with
  | Ok soup =>
      collect destination_filter (times (snd entry)) (station_name (fst entry))
        (departure_items soup)
  | Raise _ => []
  end.

Definition STATION_NAMES : list string :=
  ["Secaucus Upper"; "Secaucus Lower"; "Newark"; "Watsessing"; "Maplewood"].


(** Sample markup, in the shape of the DepartureVision pages. *)
Module Sample.

Definition dot (style : string) : node :=
  Tag "li" [("data-v-8927eb98", ""); ("style", style)] [].

Definition section (dots : list node) : node :=
  Tag "li" [("data-v-b5fd45da", "")] [Tag "ol" [] dots].

Definition occupancy (sections : list node) : node :=
  Tag "ol" [("data-v-5d9f6349", ""); ("class", OCCUPANCY_LIST_CLASS)] sections.

Definition entry (destination : string) (more : list node) : node :=
  Tag "li" [("data-v-403a649a", ""); ("class", "border mb-3 rounded")]
    ([Tag "strong" [("data-v-403a649a", "")] [NavigableString destination];
      Tag "span" [("data-v-403a649a", "")] [NavigableString "NEC"];
      Tag "p" [] [NavigableString " Train 3820 "];
      Tag "strong" [("class", "h2 mb-0")] [NavigableString "5:04 PM"];
      Tag "strong" [("class", "h3")] [NavigableString "All Aboard"];
      Tag "p" [] [NavigableString "Track 2"]] ++ more).

(** An entry without the destination element. *)
Definition broken_entry : node :=
  Tag "li" [("data-v-403a649a", ""); ("class", "border")]
    [Tag "span" [("data-v-403a649a", "")] [NavigableString "MOBO"]].

Definition page_of (entries : list node) : node :=
  Tag "[document]" [] [Tag "html" [] [Tag "ul" [] entries]].

Definition green : string := "background-color: rgb(11, 102, 35);".
Definition red : string := "background-color: rgb(220, 53, 69);".

(** One car section showing two dots. *)
Definition two_dot_entry : node :=
  entry " Newark Penn Station " [occupancy [section [dot green; dot red]]].

Definition plain_entry : node := entry "Hoboken" [].

Definition newark_entry : node := entry " Newark Penn Station " [].

Definition web_of (page : node) : string -> result node := fun _ => Ok page.

(** One dot in each of two car sections. *)
Definition one_dot_entry : node :=
  entry " Newark Penn Station " [occupancy [section [dot green]; section [dot red]]].

Definition offline : string -> result node := fun _ => Raise RequestException.

Definition morning : datetime := mk_datetime 2025 3 1 8 15 30.

(** A clock that stands still at [morning], and one that moves on by a
    second from entry to entry. *)
Definition steady : nat -> datetime := fun _ => morning.
Definition ticking : nat -> datetime :=
  fun i => mk_datetime 2025 3 1 8 15 (30 + Z.of_nat i).
Definition before_four : datetime := mk_datetime 2025 3 1 3 59 59.
Definition at_four : datetime := mk_datetime 2025 3 1 4 0 0.

Definition record : DepartureRecord :=
  mk_departure "2025-03-01 08:15:30" "Newark" "Hoboken" "NEC" "3820"
    "5:04 PM" "All Aboard" "2" 0 0 0 0 0.

Definition later_record : DepartureRecord :=
  mk_departure "2025-03-02 01:30:00" "Secaucus Upper" "New York" "NEC" "3899"
    "1:41 AM" "On Time" "" 8 3 4 1 0.

(** Half past one in the night that follows [morning]. *)
Definition after_midnight : datetime := mk_datetime 2025 3 2 1 30 0.

(** Nothing on disk yet, nothing done yet. *)
Definition fresh : world := mk_world ∅ [].

(** An entry with its destination and its line and nothing else. *)
Definition bare_entry : node :=
  Tag "li" [("data-v-403a649a", ""); ("class", "border")]
    [Tag "strong" [("data-v-403a649a", "")] [NavigableString "Hoboken"];
     Tag "span" [("data-v-403a649a", "")] [NavigableString " MOBO "]].

Definition bare_record : DepartureRecord :=
  mk_departure "2025-03-01 08:15:30" "Newark" "Hoboken" "MOBO" "" "" "" "" 0 0 0 0 0.

Definition one_dot_record : DepartureRecord :=
  mk_departure "2025-03-01 08:15:30" "Newark" "Newark Penn Station" "NEC" "3820"
    "5:04 PM" "All Aboard" "2" 2 1 0 1 0.

(** The record of [newark_entry] when the clock shows 08:15:31. *)
Definition newark_record_31 : DepartureRecord :=
  mk_departure "2025-03-01 08:15:31" "Newark" "Newark Penn Station" "NEC" "3820"
    "5:04 PM" "All Aboard" "2" 0 0 0 0 0.

Definition newark_record : DepartureRecord :=
  mk_departure "2025-03-01 08:15:30" "Newark" "Newark Penn Station" "NEC" "3820"
    "5:04 PM" "All Aboard" "2" 0 0 0 0 0.

(** Two sections whose dots show no known colour. *)
Definition grey_entry : node :=
  entry "Hoboken"
    [occupancy [section [dot "background-color: rgb(128, 128, 128);"];
                section [Tag "li" [("data-v-8927eb98", "")] []]]].

Definition next_morning : datetime := mk_datetime 2025 3 2 8 15 30.

(** The directory and the file of 2025-03-01 are there. *)
Definition used : world :=
  mk_world (<["departures/departures_2025-03-01.csv" := File [COLUMNS; row_of record]]>
              (<["departures" := Dir]> ∅)) [].

(** A regular file sits where the directory should be. *)
Definition blocked : world := mk_world (<["departures" := File []]> ∅) [].

Definition maplewood_record : DepartureRecord :=
  mk_departure "2025-03-01 08:15:30" "Maplewood" "Newark Penn Station" "NEC" "3820"
    "5:04 PM" "All Aboard" "2" 0 0 0 0 0.

End Sample.

(** * Properties *)

(** ** Counting dots *)

Section OccupancyCounts.

Lemma count_level_cons lv d dots :
  count_level lv (d :: dots)
  = (if level_eqb (dot_level d) lv then 1 else 0) + count_level lv dots.
Proof.
  unfold count_level. simpl. destruct (level_eqb (dot_level d) lv); reflexivity.
Qed.

Lemma count_level_app lv l1 l2 :
  count_level lv (l1 ++ l2) = count_level lv l1 + count_level lv l2.
Proof.
  unfold count_level. rewrite List.filter_app, List.length_app. reflexivity.
Qed.

Lemma count_level_total dots :
  count_level Light dots + count_level Medium dots
  + count_level Heavy dots + count_level NoData dots = List.length dots.
Proof.
  induction dots as [|d dots IH]; [reflexivity|].
  rewrite !count_level_cons. simpl List.length.
  destruct (dot_level d); simpl; lia.
Qed.

(** One dot adds one to the counter of its class and leaves the rest. *)
Lemma count_dot_spec info d :
  let info' := count_dot info d in
  total_sections info' = total_sections info
  /\ light info' = light info + count_level Light [d]
  /\ medium info' = medium info + count_level Medium [d]
  /\ heavy info' = heavy info + count_level Heavy [d]
  /\ no_data info' = no_data info + count_level NoData [d].
Proof.
  unfold count_dot, count_level, dot_level. simpl.
  destruct (PyStr.contains LIGHT_STYLE _); [simpl; repeat split; lia|].
  destruct (PyStr.contains MEDIUM_STYLE _); [simpl; repeat split; lia|].
  destruct (PyStr.contains HEAVY_STYLE _); simpl; repeat split; lia.
Qed.

Lemma fold_count_dot dots : forall info,
  let info' := fold_left count_dot dots info in
  total_sections info' = total_sections info
  /\ light info' = light info + count_level Light dots
  /\ medium info' = medium info + count_level Medium dots
  /\ heavy info' = heavy info + count_level Heavy dots
  /\ no_data info' = no_data info + count_level NoData dots.
Proof.
  induction dots as [|d dots IH]; intros info; simpl.
  - unfold count_level; simpl. repeat split; lia.
  - destruct (IH (count_dot info d)) as (Ht & Hl & Hm & Hh & Hn).
    destruct (count_dot_spec info d) as (Ht' & Hl' & Hm' & Hh' & Hn').
    rewrite Ht, Hl, Hm, Hh, Hn, Ht', Hl', Hm', Hh', Hn'.
    change (d :: dots) with ([d] ++ dots). rewrite !count_level_app.
    repeat split; lia.
Qed.

Lemma fold_count_section sections : forall info,
  let info' := fold_left count_section sections info in
  let dots := flat_map section_dots sections in
  total_sections info' = total_sections info
  /\ light info' = light info + count_level Light dots
  /\ medium info' = medium info + count_level Medium dots
  /\ heavy info' = heavy info + count_level Heavy dots
  /\ no_data info' = no_data info + count_level NoData dots.
Proof.
  induction sections as [|sec sections IH]; intros info; simpl.
  - unfold count_level; simpl. repeat split; lia.
  - destruct (IH (count_section info sec)) as (Ht & Hl & Hm & Hh & Hn).
    destruct (fold_count_dot (section_dots sec) info) as (Ht' & Hl' & Hm' & Hh' & Hn').
    fold (count_section info sec) in Ht', Hl', Hm', Hh', Hn'.
    rewrite Ht, Hl, Hm, Hh, Hn, Ht', Hl', Hm', Hh', Hn', !count_level_app.
    repeat split; lia.
Qed.

(** What [parse_occupancy] returns, field by field. *)
Lemma parse_occupancy_fields item :
  let info := parse_occupancy item in
  total_sections info = List.length (item_sections item)
  /\ light info = count_level Light (item_dots item)
  /\ medium info = count_level Medium (item_dots item)
  /\ heavy info = count_level Heavy (item_dots item)
  /\ no_data info = count_level NoData (item_dots item).
Proof.
  unfold parse_occupancy, item_dots, item_sections.
  destruct (find_occupancy_section item) as [sec|]; [|repeat split].
  pose proof (fold_count_section (occupancy_sections sec)
                (mk_occupancy (List.length (occupancy_sections sec)) 0 0 0 0)) as H.
  simpl in H. exact H.
Qed.

Lemma length_flat_map_sum {A B} (f : A -> list B) l :
  List.length (flat_map f l) = list_sum (map (fun x => List.length (f x)) l).
Proof.
  induction l as [|x l IH]; simpl; [reflexivity|].
  rewrite List.length_app, IH. reflexivity.
Qed.

Lemma length_flat_map_singletons {A B} (f : A -> list B) l :
  (forall x, In x l -> List.length (f x) = 1) ->
  List.length (flat_map f l) = List.length l.
Proof.
  induction l as [|x l IH]; simpl; intros H; [reflexivity|].
  rewrite List.length_app, IH, (H x) by auto. reflexivity.
Qed.

End OccupancyCounts.

(** C10. For every input of [parse_occupancy], every dot found inside the
    occupancy sections falls in exactly one of the four classes (light,
    medium, heavy by the three colours, tried in that order, no_data
    otherwise), each counter is the number of dots of its class, and the four
    counters add up to the number of dots over all sections. *)
Theorem parse_occupancy_classifies_every_dot : forall item : node,
  let info := parse_occupancy item in
  let dots := item_dots item in
  light info = count_level Light dots
  /\ medium info = count_level Medium dots
  /\ heavy info = count_level Heavy dots
  /\ no_data info = count_level NoData dots
  /\ occupancy_sum info = List.length dots
  /\ List.length dots
     = list_sum (map (fun section => List.length (section_dots section))
                     (item_sections item)).
Proof.
  intros item info dots.
  destruct (parse_occupancy_fields item) as (_ & Hl & Hm & Hh & Hn).
  subst info dots. unfold occupancy_sum.
  rewrite Hl, Hm, Hh, Hn.
  repeat split; try reflexivity.
  - apply count_level_total.
  - apply length_flat_map_sum.
Qed.

(** [find_all] looks at all descendants: a dot below two nested section
    elements is visited once for each of them. *)
Example nested_sections_visit_a_dot_twice :
  parse_occupancy
    (Sample.entry "Hoboken"
       [Sample.occupancy [Sample.section [Sample.section [Sample.dot Sample.green]]]])
  = mk_occupancy 2 2 0 0 0.
Proof. vm_compute. reflexivity. Qed.

(** For a dot, the class follows the first of the three colours its style
    contains. *)
Lemma dot_level_by_colour (dot : node) :
  let style := Soup.get "style" "" dot in
  (PyStr.contains LIGHT_STYLE style = true -> dot_level dot = Light)
  /\ (PyStr.contains LIGHT_STYLE style = false ->
      PyStr.contains MEDIUM_STYLE style = true -> dot_level dot = Medium)
  /\ (PyStr.contains LIGHT_STYLE style = false ->
      PyStr.contains MEDIUM_STYLE style = false ->
      PyStr.contains HEAVY_STYLE style = true -> dot_level dot = Heavy)
  /\ (PyStr.contains LIGHT_STYLE style = false ->
      PyStr.contains MEDIUM_STYLE style = false ->
      PyStr.contains HEAVY_STYLE style = false -> dot_level dot = NoData).
Proof.
  unfold dot_level. simpl.
  repeat split; intros; repeat match goal with H : _ = _ |- _ => rewrite H; clear H end;
    reflexivity.
Qed.

(** ** The loop of [scrape_departures] *)

Lemma bind_Ok {A B} (a : A) (k : A -> result B) : (Ok a ≫= k) = k a.
Proof. reflexivity. Qed.

Lemma bind_Raise {A B} e (k : A -> result B) : (Raise e ≫= k) = Raise e.
Proof. reflexivity. Qed.

Lemma bind_inv_Ok {A B} (m : result A) (k : A -> result B) b :
  (m ≫= k) = Ok b -> exists a, m = Ok a /\ k a = Ok b.
Proof. destruct m as [a|e]; [eauto | discriminate]. Qed.

Lemma scrape_step_kept flt clock station acc entry :
  scrape_step flt clock station acc entry = acc ++ kept_at flt clock station entry.
Proof.
  unfold scrape_step, kept_at, kept.
  destruct (scrape_item flt (clock (fst entry)) station (snd entry)) as [[r|]|e];
    rewrite ?List.app_nil_r; reflexivity.
Qed.

Lemma fold_scrape_step flt clock station entries : forall acc,
  fold_left (scrape_step flt clock station) entries acc
  = acc ++ flat_map (kept_at flt clock station) entries.
Proof.
  induction entries as [|entry entries IH]; intros acc; simpl.
  - rewrite List.app_nil_r. reflexivity.
  - rewrite IH, scrape_step_kept, <- List.app_assoc. reflexivity.
Qed.

Lemma collect_flat_map flt clock station items :
  collect flt clock station items
  = flat_map (kept_at flt clock station) (enumerate items).
Proof. unfold collect. rewrite fold_scrape_step. reflexivity. Qed.

Lemma enumerate_from_app {A} (l1 l2 : list A) : forall k,
  enumerate_from k (l1 ++ l2)
  = enumerate_from k l1 ++ enumerate_from (k + List.length l1) l2.
Proof.
  induction l1 as [|x l1 IH]; intros k; simpl.
  - rewrite Nat.add_0_r. reflexivity.
  - rewrite IH, Nat.add_succ_r. reflexivity.
Qed.

Lemma enumerate_from_In {A} (l : list A) : forall k i x,
  In (i, x) (enumerate_from k l) -> k <= i /\ nth_error l (i - k) = Some x.
Proof.
  induction l as [|y l IH]; intros k i x H; simpl in H; [contradiction|].
  destruct H as [H|H].
  - injection H as <- <-. rewrite Nat.sub_diag. split; [lia | reflexivity].
  - apply IH in H as [Hle Hnth]. split; [lia|].
    replace (i - k) with (S (i - S k)) by lia. exact Hnth.
Qed.

(** Positions that start at [k + j] under [clock] are positions that start
    at [j] under the clock moved on by [k]. *)
Lemma flat_map_kept_at_shift flt clock station k items : forall j,
  flat_map (kept_at flt clock station) (enumerate_from (k + j) items)
  = flat_map (kept_at flt (fun i => clock (k + i)) station) (enumerate_from j items).
Proof.
  induction items as [|item items IH]; intros j; simpl; [reflexivity|].
  rewrite <- Nat.add_succ_r, IH. reflexivity.
Qed.

Lemma collect_app flt clock station l1 l2 :
  collect flt clock station (l1 ++ l2)
  = collect flt clock station l1
    ++ collect flt (fun i => clock (List.length l1 + i)) station l2.
Proof.
  rewrite !collect_flat_map. unfold enumerate.
  rewrite enumerate_from_app, List.flat_map_app. f_equal.
  simpl. rewrite <- (Nat.add_0_r (List.length l1)) at 1.
  apply flat_map_kept_at_shift.
Qed.

Lemma scrape_departures_page flt web clock url station soup :
  web url = Ok soup ->
  scrape_departures flt web clock url station
  = Ok (collect flt clock station (departure_items soup)).
Proof. intros H. unfold scrape_departures. rewrite H. reflexivity. Qed.

Lemma scrape_departures_fetch_error flt web clock url station e :
  web url = Raise e -> scrape_departures flt web clock url station = Ok [].
Proof. intros H. unfold scrape_departures. rewrite H. reflexivity. Qed.

Lemma kept_singleton flt now station item r :
  In r (kept flt now station item) -> scrape_item flt now station item = Ok (Some r).
Proof.
  unfold kept.
  destruct (scrape_item flt now station item) as [[r'|]|e']; simpl;
    try contradiction.
  intros [->|[]]. reflexivity.
Qed.

(** A record in the list built from some entries was built from one of
    them, with the reading of the clock at the position of that entry. *)
Lemma collect_origin flt clock station items r :
  In r (collect flt clock station items) ->
  exists i item,
    nth_error items i = Some item
    /\ scrape_item flt (clock i) station item = Ok (Some r).
Proof.
  rewrite collect_flat_map. intros Hin.
  apply List.in_flat_map in Hin as ([i item] & Hentry & Hr).
  apply enumerate_from_In in Hentry as [_ Hnth]. rewrite Nat.sub_0_r in Hnth.
  exists i, item. split; [exact Hnth|]. apply kept_singleton. exact Hr.
Qed.

(** A record in the list of a page was built from one of its entries. *)
Lemma scrape_departures_origin flt web clock url station recs r :
  scrape_departures flt web clock url station = Ok recs -> In r recs ->
  exists soup i item,
    web url = Ok soup /\ nth_error (departure_items soup) i = Some item
    /\ scrape_item flt (clock i) station item = Ok (Some r).
Proof.
  intros Hrun Hin. destruct (web url) as [soup|e] eqn:Hweb.
  - rewrite (scrape_departures_page _ _ _ _ _ _ Hweb) in Hrun.
    injection Hrun as <-.
    apply collect_origin in Hin as (i & item & Hnth & Hr).
    exists soup, i, item. auto.
  - rewrite (scrape_departures_fetch_error _ _ _ _ _ _ Hweb) in Hrun.
    injection Hrun as <-. contradiction.
Qed.

(** The occupancy fields of a record are the counters of [parse_occupancy]. *)
Lemma build_record_occupancy now station destination item r :
  build_record now station destination item = Ok r ->
  car_sections r = total_sections (parse_occupancy item)
  /\ occupancy_light r = light (parse_occupancy item)
  /\ occupancy_medium r = medium (parse_occupancy item)
  /\ occupancy_heavy r = heavy (parse_occupancy item)
  /\ occupancy_no_data r = no_data (parse_occupancy item).
Proof.
  unfold build_record. intros H.
  apply bind_inv_Ok in H as (l & _ & H). injection H as <-. repeat split.
Qed.

Lemma scrape_item_inv flt now station item r :
  scrape_item flt now station item = Ok (Some r) ->
  exists destination,
    item_destination item = Ok destination
    /\ filtered_out flt destination = false
    /\ build_record now station destination item = Ok r.
Proof.
  unfold scrape_item. intros H.
  apply bind_inv_Ok in H as (d & Hd & H). exists d.
  destruct (filtered_out flt d); [discriminate|].
  apply bind_inv_Ok in H as (r' & Hr & H). injection H as <-. auto.
Qed.

(** C1 (amended). For every record produced by [scrape_departures], the
    four occupancy counts add up to the number of dots found in the sections
    of the entry it was built from, and [car_sections] is the number of
    those sections; the sum equals [car_sections] whenever each section
    holds exactly one dot. *)
Theorem record_counts_sum_to_dots :
  forall flt web clock url station recs r,
    scrape_departures flt web clock url station = Ok recs ->
    In r recs ->
    exists soup i item,
      web url = Ok soup
      /\ nth_error (departure_items soup) i = Some item
      /\ In item (departure_items soup)
      /\ scrape_item flt (clock i) station item = Ok (Some r)
      /\ car_sections r = List.length (item_sections item)
      /\ record_sum r = List.length (item_dots item)
      /\ ((forall section, In section (item_sections item) ->
             List.length (section_dots section) = 1) ->
          record_sum r = car_sections r).
Proof.
  intros flt web clock url station recs r Hrun Hin.
  destruct (scrape_departures_origin _ _ _ _ _ _ _ Hrun Hin)
    as (soup & i & item & Hweb & Hnth & Hr).
  exists soup, i, item.
  pose proof Hr as Hitem.
  apply scrape_item_inv in Hr as (d & _ & _ & Hb).
  apply build_record_occupancy in Hb as (Ht & Hl & Hm & Hh & Hn).
  destruct (parse_occupancy_fields item) as (Ht' & Hl' & Hm' & Hh' & Hn').
  assert (Hsum : record_sum r = List.length (item_dots item)).
  { unfold record_sum. rewrite Hl, Hm, Hh, Hn, Hl', Hm', Hh', Hn'.
    apply count_level_total. }
  split; [exact Hweb|]. split; [exact Hnth|].
  split; [apply (List.nth_error_In _ _ Hnth)|]. split; [exact Hitem|].
  split; [rewrite Ht; exact Ht'|]. split; [exact Hsum|].
  intros Hone. rewrite Hsum, Ht, Ht'. unfold item_dots.
  apply length_flat_map_singletons. exact Hone.
Qed.

(** A page with one entry, two car sections, one dot in each: the record
    has [car_sections = 2] and counts that add up to 2. *)
Lemma record_counts_sum_to_dots_witness :
  exists soup i item,
    Sample.web_of (Sample.page_of [Sample.one_dot_entry]) "u" = Ok soup
    /\ nth_error (departure_items soup) i = Some item
    /\ scrape_item None (Sample.steady i) "Newark" item = Ok (Some Sample.one_dot_record)
    /\ car_sections Sample.one_dot_record = List.length (item_sections item)
    /\ record_sum Sample.one_dot_record = List.length (item_dots item)
    /\ (forall section, In section (item_sections item) ->
          List.length (section_dots section) = 1)
    /\ record_sum Sample.one_dot_record = car_sections Sample.one_dot_record.
Proof.
  destruct (record_counts_sum_to_dots None
              (Sample.web_of (Sample.page_of [Sample.one_dot_entry]))
              Sample.steady "u" "Newark" [Sample.one_dot_record]
              Sample.one_dot_record)
    as (soup & i & item & Hweb & Hnth & Hin & Hitem & Hcar & Hsum & Hone).
  - vm_compute. reflexivity.
  - left. reflexivity.
  - injection Hweb as <-. vm_compute in Hin. destruct Hin as [<-|[]].
    assert (Hsections : forall section,
               In section (item_sections Sample.one_dot_entry) ->
               List.length (section_dots section) = 1).
    { intros section Hs. vm_compute in Hs.
      destruct Hs as [<-|[<-|[]]]; vm_compute; reflexivity. }
    exists (Sample.page_of [Sample.one_dot_entry]), i, Sample.one_dot_entry.
    split; [reflexivity|]. split; [exact Hnth|]. split; [exact Hitem|].
    split; [exact Hcar|]. split; [exact Hsum|]. split; [exact Hsections|].
    apply Hone, Hsections.
Defined.

(** C1 (as stated) fails: an entry whose single car section shows two dots
    gives a record with [car_sections = 1] and counts adding up to 2. *)
Lemma record_counts_sum_counterexample :
  exists r,
    scrape_departures None (Sample.web_of (Sample.page_of [Sample.two_dot_entry]))
      Sample.steady "u" "Newark" = Ok [r]
    /\ car_sections r = 1
    /\ record_sum r = 2
    /\ record_sum r <> car_sections r.
Proof.
  eexists. split; [vm_compute; reflexivity|].
  repeat split; vm_compute; discriminate.
Qed.

(** C7. An entry without the occupancy list gets the zero-filled summary
    from [parse_occupancy] (no exception), and, when its destination and
    line are there and the filter lets it through, it still yields a
    record, with the five occupancy fields at zero. *)
Theorem missing_occupancy_is_zero_filled : forall item : node,
  find_occupancy_section item = None ->
  parse_occupancy item = mk_occupancy 0 0 0 0 0
  /\ forall flt now station destination line,
       item_destination item = Ok destination ->
       filtered_out flt destination = false ->
       item_line item = Ok line ->
       exists r,
         scrape_item flt now station item = Ok (Some r)
         /\ kept flt now station item = [r]
         /\ car_sections r = 0 /\ occupancy_light r = 0
         /\ occupancy_medium r = 0 /\ occupancy_heavy r = 0
         /\ occupancy_no_data r = 0.
Proof.
  intros item Hnone.
  assert (Hzero : parse_occupancy item = mk_occupancy 0 0 0 0 0).
  { unfold parse_occupancy. rewrite Hnone. reflexivity. }
  split; [exact Hzero|].
  intros flt now station destination l Hdest Hflt Hline.
  unfold kept, scrape_item, build_record.
  rewrite Hdest, bind_Ok, Hflt, Hline, !bind_Ok, Hzero. simpl.
  eexists. repeat split.
Qed.

Lemma missing_occupancy_is_zero_filled_witness :
  parse_occupancy Sample.plain_entry = mk_occupancy 0 0 0 0 0
  /\ exists r,
       scrape_item None Sample.morning "Newark" Sample.plain_entry = Ok (Some r)
       /\ kept None Sample.morning "Newark" Sample.plain_entry = [r]
       /\ car_sections r = 0 /\ occupancy_light r = 0
       /\ occupancy_medium r = 0 /\ occupancy_heavy r = 0
       /\ occupancy_no_data r = 0.
Proof.
  destruct (missing_occupancy_is_zero_filled Sample.plain_entry) as [Hz Hrec];
    [vm_compute; reflexivity|].
  split; [exact Hz|].
  apply (Hrec None Sample.morning "Newark" "Hoboken" "NEC");
    vm_compute; reflexivity.
Defined.

(** C3. [scrape_departures] always returns a list, never an exception:
    the empty list when the fetch fails, and otherwise what each entry of
    the page yields on its own (with the reading of the clock for its
    position), so that an entry whose extraction raises is left out while
    the entries before and after it are processed as usual. *)
Theorem scrape_departures_never_raises :
  forall flt web clock url station,
  exists recs,
    scrape_departures flt web clock url station = Ok recs
    /\ (forall e, web url = Raise e -> recs = [])
    /\ (forall soup, web url = Ok soup ->
          recs = flat_map (kept_at flt clock station) (enumerate (departure_items soup))
          /\ forall before bad after e,
               departure_items soup = before ++ bad :: after ->
               scrape_item flt (clock (List.length before)) station bad = Raise e ->
               recs = collect flt clock station before
                      ++ collect flt (fun i => clock (List.length before + S i))
                           station after).
Proof.
  intros flt web clock url station.
  destruct (web url) as [soup|e] eqn:Hweb.
  - exists (collect flt clock station (departure_items soup)).
    split; [apply scrape_departures_page; exact Hweb|].
    split; [intros e He; discriminate|].
    intros soup' Hs. injection Hs as <-.
    split; [apply collect_flat_map|].
    intros before bad after e Hsplit Hbad.
    rewrite Hsplit. change (bad :: after) with ([bad] ++ after).
    rewrite !collect_app. f_equal.
    rewrite (collect_flat_map _ _ _ [bad]). simpl. unfold kept_at, kept. simpl.
    rewrite Nat.add_0_r, Hbad. reflexivity.
  - exists []. split; [apply (scrape_departures_fetch_error _ _ _ _ _ e); exact Hweb|].
    split; [reflexivity|]. intros soup Hs. discriminate.
Qed.

Lemma scrape_departures_never_raises_witness :
  exists recs,
    scrape_departures None
      (Sample.web_of (Sample.page_of [Sample.plain_entry; Sample.broken_entry;
                                      Sample.newark_entry]))
      Sample.ticking "u" "Newark" = Ok recs
    /\ recs = collect None Sample.ticking "Newark" [Sample.plain_entry]
              ++ collect None (fun i => Sample.ticking (1 + S i)) "Newark"
                   [Sample.newark_entry].
Proof.
  destruct (scrape_departures_never_raises None
              (Sample.web_of (Sample.page_of [Sample.plain_entry; Sample.broken_entry;
                                              Sample.newark_entry]))
              Sample.ticking "u" "Newark") as (recs & Hrun & _ & Hpage).
  exists recs. split; [exact Hrun|].
  destruct (Hpage _ eq_refl) as [_ Hskip].
  apply (Hskip [Sample.plain_entry] Sample.broken_entry [Sample.newark_entry]
           AttributeError); vm_compute; reflexivity.
Defined.

(** The two failure cases of C3 on sample pages. *)
Example scrape_departures_offline :
  scrape_departures None Sample.offline Sample.steady "u" "Newark" = Ok [].
Proof. reflexivity. Qed.

Example scrape_departures_skips_broken_entry :
  scrape_item None Sample.morning "Newark" Sample.broken_entry = Raise AttributeError
  /\ scrape_departures None
       (Sample.web_of (Sample.page_of [Sample.plain_entry; Sample.broken_entry;
                                       Sample.newark_entry]))
       Sample.steady "u" "Newark"
     = scrape_departures None
         (Sample.web_of (Sample.page_of [Sample.plain_entry; Sample.newark_entry]))
         Sample.steady "u" "Newark"
  /\ exists r1 r2,
       scrape_departures None
         (Sample.web_of (Sample.page_of [Sample.plain_entry; Sample.broken_entry;
                                         Sample.newark_entry]))
         Sample.steady "u" "Newark" = Ok [r1; r2]
       /\ destination r1 = "Hoboken" /\ destination r2 = "Newark Penn Station".
Proof.
  split; [vm_compute; reflexivity|].
  split; [vm_compute; reflexivity|].
  eexists _, _. split; [vm_compute; reflexivity|]. split; reflexivity.
Qed.

(** ** The destination filter *)

Lemma truthy_nonempty (f : string) : f <> EmptyString -> PyStr.truthy f = true.
Proof. destruct f; [congruence | reflexivity]. Qed.

(** C5. With a non-empty filter, an entry (whose destination text is
    [destination]) passes the filter exactly when the lower-cased filter
    occurs in the lower-cased destination; a passing entry goes on to the
    extraction of the other fields, and an entry that does not pass is
    dropped at once: nothing else is extracted and no record is built. *)
Theorem destination_filter_retains_iff :
  forall (f : string) now station item destination,
    f <> EmptyString ->
    item_destination item = Ok destination ->
    let occurs := PyStr.contains (PyStr.lower f) (PyStr.lower destination) in
    (filtered_out (Some f) destination = false <-> occurs = true)
    /\ (occurs = true ->
        scrape_item (Some f) now station item
        = (r ← build_record now station destination item; mret (Some r)))
    /\ (occurs = false ->
        scrape_item (Some f) now station item = Ok None
        /\ kept (Some f) now station item = []).
Proof.
  intros f now station item destination Hf Hdest occurs.
  assert (Hout : filtered_out (Some f) destination = negb occurs).
  { unfold filtered_out. rewrite (truthy_nonempty f Hf). reflexivity. }
  split; [|split].
  - rewrite Hout. destruct occurs; simpl; split; congruence.
  - intros Hocc. unfold scrape_item. rewrite Hdest, bind_Ok, Hout, Hocc. reflexivity.
  - intros Hocc. unfold kept, scrape_item. rewrite Hdest, bind_Ok, Hout, Hocc.
    split; reflexivity.
Qed.

Lemma destination_filter_retains_iff_witness :
  (filtered_out (Some "Newark") "Newark Penn Station" = false
   <-> PyStr.contains (PyStr.lower "Newark") (PyStr.lower "Newark Penn Station") = true)
  /\ (PyStr.contains (PyStr.lower "Newark") (PyStr.lower "Newark Penn Station") = true ->
      scrape_item (Some "Newark") Sample.morning "Newark" Sample.newark_entry
      = (r ← build_record Sample.morning "Newark" "Newark Penn Station"
               Sample.newark_entry; mret (Some r)))
  /\ (PyStr.contains (PyStr.lower "Newark") (PyStr.lower "Newark Penn Station") = false ->
      scrape_item (Some "Newark") Sample.morning "Newark" Sample.newark_entry = Ok None
      /\ kept (Some "Newark") Sample.morning "Newark" Sample.newark_entry = []).
Proof.
  apply (destination_filter_retains_iff "Newark" Sample.morning "Newark"
           Sample.newark_entry "Newark Penn Station").
  - discriminate.
  - vm_compute. reflexivity.
Defined.

(** The example of the specification: the filters [Newark] and [newark]
    keep [Newark Penn Station] and drop [Hoboken]; a dropped entry is not
    looked at further, so even a missing line element raises nothing. *)
Example filter_newark_examples :
  filtered_out (Some "Newark") "Newark Penn Station" = false
  /\ filtered_out (Some "newark") "Newark Penn Station" = false
  /\ filtered_out (Some "Newark") "Hoboken" = true
  /\ filtered_out (Some "newark") "Hoboken" = true
  /\ (exists r, kept (Some "newark") Sample.morning "Newark" Sample.newark_entry = [r]
                /\ destination r = "Newark Penn Station")
  /\ kept (Some "Newark") Sample.morning "Newark" Sample.plain_entry = []
  /\ scrape_item (Some "x") Sample.morning "Newark"
       (Tag "li" [] [Tag "strong" [("data-v-403a649a", "")] [NavigableString "Hoboken"]])
     = Ok None
  /\ scrape_item None Sample.morning "Newark"
       (Tag "li" [] [Tag "strong" [("data-v-403a649a", "")] [NavigableString "Hoboken"]])
     = Raise AttributeError.
Proof.
  repeat split; try (vm_compute; reflexivity).
  eexists. split; vm_compute; reflexivity.
Qed.

(** C9. The empty string as filter switches filtering off: no destination
    is filtered out, every entry is handled as with no filter at all, and
    so is every page. *)
Theorem empty_filter_is_no_filter :
  forall now station,
    (forall destination, filtered_out (Some EmptyString) destination = false)
    /\ (forall item, scrape_item (Some EmptyString) now station item
                     = scrape_item None now station item)
    /\ (forall web clock url,
          scrape_departures (Some EmptyString) web clock url station
          = scrape_departures None web clock url station).
Proof.
  intros now station. split; [|split].
  - intros destination. unfold filtered_out. reflexivity.
  - intros item. unfold scrape_item.
    destruct (item_destination item) as [d|e]; reflexivity.
  - intros web clock url. unfold scrape_departures.
    destruct (web url) as [soup|e]; reflexivity.
Qed.

(** ** The calendar *)

Section CalendarFacts.

Import Calendar.
Local Open Scope Z_scope.

Lemma is_leap_true y : is_leap y = true <-> y mod 4 = 0 /\ (y mod 100 <> 0 \/ y mod 400 = 0).
Proof.
  unfold is_leap.
  destruct (Z.eqb_spec (y mod 4) 0), (Z.eqb_spec (y mod 100) 0), (Z.eqb_spec (y mod 400) 0);
    simpl; intuition congruence.
Qed.

Lemma days_before_year_succ y :
  days_before_year (y + 1) = days_before_year y + 365 + (if is_leap y then 1 else 0).
Proof.
  unfold days_before_year.
  replace (y + 1 - 1) with (y - 1 + 1) by lia.
  destruct (is_leap y) eqn:E.
  - apply is_leap_true in E. Z.div_mod_to_equations. lia.
  - assert (~ (y mod 4 = 0 /\ (y mod 100 <> 0 \/ y mod 400 = 0))) as N
      by (rewrite <- is_leap_true; congruence).
    Z.div_mod_to_equations. lia.
Qed.

Lemma days_before_year_mono a b : a <= b -> days_before_year a <= days_before_year b.
Proof.
  intros H. unfold days_before_year. Z.div_mod_to_equations. lia.
Qed.

Ltac month_cases m :=
  let Hc := fresh "Hcase" in
  assert (m = 1 \/ m = 2 \/ m = 3 \/ m = 4 \/ m = 5 \/ m = 6 \/ m = 7 \/ m = 8
          \/ m = 9 \/ m = 10 \/ m = 11 \/ m = 12) as Hc by lia;
  repeat destruct Hc as [Hc|Hc]; subst m.

Lemma days_before_month_succ y m :
  1 <= m <= 11 ->
  days_before_month y (m + 1) = days_before_month y m + days_in_month y m.
Proof.
  intros H. month_cases m; try lia; unfold days_before_month, days_in_month, DAYS_IN_MONTH, DAYS_BEFORE_MONTH;
    destruct (is_leap y); reflexivity.
Qed.

Lemma days_in_month_bounds y m : 1 <= m <= 12 -> 28 <= days_in_month y m <= 31.
Proof.
  intros H. month_cases m; unfold days_in_month, DAYS_IN_MONTH; destruct (is_leap y); simpl; lia.
Qed.

Lemma days_before_month_mono y m1 m2 :
  1 <= m1 -> m1 < m2 -> m2 <= 12 ->
  days_before_month y m1 + days_in_month y m1 <= days_before_month y m2.
Proof.
  intros H1 H2 H3.
  month_cases m1; month_cases m2; try lia;
    unfold days_before_month, days_in_month, DAYS_IN_MONTH, DAYS_BEFORE_MONTH; destruct (is_leap y); simpl; lia.
Qed.

Lemma day_of_year_bounds y m d :
  valid_date y m d ->
  1 <= days_before_month y m + d <= 365 + (if is_leap y then 1 else 0).
Proof.
  intros (_ & Hm & Hd). revert Hd.
  month_cases m; unfold days_before_month, days_in_month, DAYS_IN_MONTH, DAYS_BEFORE_MONTH; destruct (is_leap y); simpl; lia.
Qed.

Lemma toordinal_inj a b :
  valid_date (year a) (month a) (day a) ->
  valid_date (year b) (month b) (day b) ->
  toordinal a = toordinal b -> date_of a = date_of b.
Proof.
  intros Ha Hb. unfold toordinal, date_of.
  destruct a as [ya ma da ? ? ?], b as [yb mb db ? ? ?]; simpl in *. intros Heq.
  pose proof (day_of_year_bounds _ _ _ Ha) as Ba.
  pose proof (day_of_year_bounds _ _ _ Hb) as Bb.
  pose proof (days_before_year_succ ya) as Sa.
  pose proof (days_before_year_succ yb) as Sb.
  assert (ya = yb) as ->.
  { destruct (Z.lt_trichotomy ya yb) as [Hlt|[Heq'|Hgt]]; [|assumption|].
    - pose proof (days_before_year_mono (ya + 1) yb ltac:(lia)). lia.
    - pose proof (days_before_year_mono (yb + 1) ya ltac:(lia)). lia. }
  assert (ma = mb) as ->.
  { destruct Ha as (_ & Hma & Hda), Hb as (_ & Hmb & Hdb).
    destruct (Z.lt_trichotomy ma mb) as [Hlt|[Heq'|Hgt]]; [|assumption|].
    - pose proof (days_before_month_mono yb ma mb ltac:(lia) Hlt ltac:(lia)). lia.
    - pose proof (days_before_month_mono yb mb ma ltac:(lia) Hgt ltac:(lia)). lia. }
  f_equal. lia.
Qed.

Lemma minus_one_day_spec t :
  valid t -> 1 < toordinal t ->
  exists p, minus_one_day t = Ok p /\ valid p /\ toordinal p = toordinal t - 1.
Proof.
  intros ((Hy & Hm & Hd) & Hh & Hmi & Hs) Hord.
  destruct t as [y m d h mi s]; simpl in *.
  unfold minus_one_day, toordinal in *; simpl in *.
  destruct (Z.ltb_spec 1 d) as [Hd1|Hd1].
  - eexists; split; [reflexivity|]. unfold valid, valid_date; simpl.
    split; [|lia]. repeat split; lia.
  - assert (d = 1) as -> by lia.
    destruct (Z.ltb_spec 1 m) as [Hm1|Hm1].
    + eexists; split; [reflexivity|]. unfold valid, valid_date; simpl.
      pose proof (days_in_month_bounds y (m - 1) ltac:(lia)).
      pose proof (days_before_month_succ y (m - 1) ltac:(lia)) as E.
      replace (m - 1 + 1) with m in E by lia.
      split; [|lia]. repeat split; lia.
    + assert (m = 1) as -> by lia.
      destruct (Z.ltb_spec 1 y) as [Hy1|Hy1].
      * eexists; split; [reflexivity|]. unfold valid, valid_date; simpl.
        pose proof (days_before_year_succ (y - 1)) as E.
        replace (y - 1 + 1) with y in E by lia.
        unfold days_before_month, days_in_month, DAYS_IN_MONTH, DAYS_BEFORE_MONTH in *. simpl.
        split.
        -- repeat split; try lia.
        -- destruct (is_leap (y - 1)); simpl; lia.
      * assert (y = 1) as -> by lia. vm_compute in Hord. discriminate.
Qed.

Lemma toordinal_positive t :
  valid_date (year t) (month t) (day t) -> 1 <= toordinal t.
Proof.
  intros H. pose proof (day_of_year_bounds _ _ _ H) as B.
  destruct H as (Hy & _). pose proof (days_before_year_mono 1 (year t) ltac:(lia)) as M.
  change (days_before_year 1) with 0 in M. unfold toordinal. lia.
Qed.

Lemma strftime_date_of a b : date_of a = date_of b -> strftime_date a = strftime_date b.
Proof.
  unfold date_of, strftime_date. intros H. injection H as -> -> ->. reflexivity.
Qed.

End CalendarFacts.

(** ** Formatted dates and paths *)

Section Characters.

Variable P : ascii -> bool.

Lemma all_chars_app a b : all_chars P (a +:+ b) = all_chars P a && all_chars P b.
Proof.
  induction a as [|c a IH]; simpl; [reflexivity|].
  rewrite IH, andb_assoc. reflexivity.
Qed.

Lemma all_chars_weaken (Q : ascii -> bool) s :
  (forall c, P c = true -> Q c = true) ->
  all_chars P s = true -> all_chars Q s = true.
Proof.
  intros HPQ. induction s as [|c s IH]; simpl; [reflexivity|].
  intros H. apply andb_true_iff in H as [Hc Hs].
  rewrite (HPQ _ Hc), (IH Hs). reflexivity.
Qed.

Lemma all_chars_zeros k : P "0"%char = true ->
  all_chars P (PyStr.concat_all (List.repeat "0" k)) = true.
Proof.
  intros H0. induction k as [|k IH]; [reflexivity|].
  change (PyStr.concat_all (List.repeat "0" (S k)))
    with ("0" +:+ PyStr.concat_all (List.repeat "0" k)).
  rewrite all_chars_app, IH. simpl. rewrite H0. reflexivity.
Qed.

End Characters.

Lemma digit_is_digit n : is_digit (PyStr.digit n) = true.
Proof.
  unfold PyStr.digit. pose proof (Nat.mod_upper_bound n 10 ltac:(lia)) as H.
  remember (n mod 10) as k eqn:E. clear E.
  do 10 (destruct k as [|k]; [reflexivity|]). lia.
Qed.

Lemma digits_from_O n acc : PyStr.digits_from 0 n acc = String (PyStr.digit n) acc.
Proof. reflexivity. Qed.

Lemma digits_from_S fuel n acc :
  PyStr.digits_from (S fuel) n acc
  = if n / 10 =? 0 then String (PyStr.digit n) acc
    else PyStr.digits_from fuel (n / 10) (String (PyStr.digit n) acc).
Proof. reflexivity. Qed.

Lemma all_chars_cons P c s : all_chars P (String c s) = P c && all_chars P s.
Proof. reflexivity. Qed.

Lemma digits_from_all_digits fuel : forall n acc,
  all_chars is_digit acc = true ->
  all_chars is_digit (PyStr.digits_from fuel n acc) = true.
Proof.
  induction fuel as [|fuel IH]; intros n acc Hacc.
  - rewrite digits_from_O, all_chars_cons, digit_is_digit. exact Hacc.
  - rewrite digits_from_S. destruct (n / 10 =? 0).
    + rewrite all_chars_cons, digit_is_digit. exact Hacc.
    + apply IH. rewrite all_chars_cons, digit_is_digit. exact Hacc.
Qed.

Lemma str_of_nat_all_digits n : all_chars is_digit (PyStr.str_of_nat n) = true.
Proof. apply digits_from_all_digits. reflexivity. Qed.

Lemma digit_not_sep c : is_digit c = true -> not_sep c = true.
Proof.
  unfold is_digit, not_sep, OsPath.is_sep, PyStr.code. intros H.
  apply andb_true_iff in H as [H1 H2].
  apply Nat.leb_le in H1. apply negb_true_iff. apply Ascii.eqb_neq.
  intros ->. vm_compute in H1. lia.
Qed.

Lemma fmt_no_sep width z : all_chars not_sep (Calendar.fmt width z) = true.
Proof.
  unfold Calendar.fmt, PyStr.zfill. rewrite all_chars_app.
  rewrite all_chars_zeros by reflexivity.
  apply (all_chars_weaken is_digit), str_of_nat_all_digits. exact digit_not_sep.
Qed.

Lemma strftime_date_no_sep t : all_chars not_sep (Calendar.strftime_date t) = true.
Proof.
  unfold Calendar.strftime_date.
  rewrite !all_chars_app, !fmt_no_sep. reflexivity.
Qed.

Lemma split_no_sep t :
  all_chars not_sep t = true -> OsPath.split_at_last_sep t = (EmptyString, t).
Proof.
  induction t as [|c t IH]; simpl; [reflexivity|].
  intros H. apply andb_true_iff in H as [Hc Ht]. rewrite (IH Ht). simpl.
  unfold not_sep in Hc. apply negb_true_iff in Hc. rewrite Hc. reflexivity.
Qed.

Lemma split_after_sep h t :
  all_chars not_sep t = true ->
  OsPath.split_at_last_sep (h +:+ String "/" t) = (h +:+ "/", t).
Proof.
  intros Ht. induction h as [|c h IH]; simpl.
  - rewrite (split_no_sep t Ht). reflexivity.
  - rewrite IH. destruct h; reflexivity.
Qed.

Lemma no_sep_starts s : all_chars not_sep s = true -> OsPath.starts_with_sep s = false.
Proof.
  destruct s as [|c s]; simpl; [reflexivity|]. intros H.
  apply andb_true_iff in H as [Hc _]. apply negb_true_iff in Hc. exact Hc.
Qed.

Lemma join_departures s :
  OsPath.starts_with_sep s = false -> OsPath.join "departures" s = "departures/" +:+ s.
Proof. intros H. unfold OsPath.join. rewrite H. reflexivity. Qed.

Lemma dirname_departures t :
  all_chars not_sep t = true -> OsPath.dirname ("departures/" +:+ t) = "departures".
Proof.
  intros Ht. unfold OsPath.dirname.
  change ("departures/" +:+ t) with ("departures" +:+ String "/" t).
  rewrite (split_after_sep _ _ Ht). reflexivity.
Qed.

Lemma basename_departures t :
  all_chars not_sep t = true -> OsPath.basename ("departures/" +:+ t) = t.
Proof.
  intros Ht. unfold OsPath.basename.
  change ("departures/" +:+ t) with ("departures" +:+ String "/" t).
  rewrite (split_after_sep _ _ Ht). reflexivity.
Qed.

Lemma get_current_file_date_service_day now :
  get_current_file_date now
  = (b ← service_day now; mret ("departures/" +:+ Calendar.strftime_date b)).
Proof.
  unfold get_current_file_date, service_day.
  destruct (hour now <? 4)%Z; [destruct (Calendar.minus_one_day now) as [b|e]|];
    simpl; try reflexivity;
    rewrite join_departures by (apply no_sep_starts, strftime_date_no_sep);
    reflexivity.
Qed.

(** C4. The bucket of [get_current_file_date] is the previous calendar
    date when the local time is before 04:00 (the date whose day number is
    one less, which exists for every date but the first one [datetime] can
    hold), and the current calendar date from 04:00 on. *)
Theorem service_day_boundary : forall now : datetime,
  Calendar.valid now ->
  ((hour now < 4)%Z ->
     (forall p, Calendar.valid_date (year p) (month p) (day p) ->
                Calendar.toordinal p = (Calendar.toordinal now - 1)%Z ->
                get_current_file_date now
                = Ok ("departures/" +:+ Calendar.strftime_date p))
     /\ ((1 < Calendar.toordinal now)%Z ->
         exists p, Calendar.valid_date (year p) (month p) (day p)
                   /\ Calendar.toordinal p = (Calendar.toordinal now - 1)%Z))
  /\ ((4 <= hour now)%Z ->
      get_current_file_date now
      = Ok ("departures/" +:+ Calendar.strftime_date now)).
Proof.
  intros now Hvalid. rewrite get_current_file_date_service_day. unfold service_day.
  split.
  - intros Hh. destruct (Z.ltb_spec (hour now) 4) as [_|]; [|lia].
    split.
    + intros p Hp Hord.
      pose proof (toordinal_positive p Hp) as Hpos.
      destruct (minus_one_day_spec now Hvalid ltac:(lia)) as (q & Hq & Hvq & Hoq).
      rewrite Hq, bind_Ok. simpl. do 2 f_equal.
      apply strftime_date_of, toordinal_inj; [apply Hvq | exact Hp | lia].
    + intros Hnow.
      destruct (minus_one_day_spec now Hvalid Hnow) as (q & _ & Hvq & Hoq).
      exists q. split; [apply Hvq | exact Hoq].
  - intros Hh. destruct (Z.ltb_spec (hour now) 4) as [|_]; [lia|]. reflexivity.
Qed.

(** At 03:59:59 on 2025-03-01 the bucket is 2025-02-28. *)
Lemma service_day_boundary_witness :
  get_current_file_date Sample.before_four = Ok "departures/2025-02-28".
Proof.
  assert (Hv : Calendar.valid Sample.before_four) by (vm_compute; intuition discriminate).
  destruct (service_day_boundary Sample.before_four Hv) as [Hbefore _].
  destruct Hbefore as [Hprev _]; [vm_compute; reflexivity|].
  apply (Hprev (mk_datetime 2025 2 28 0 0 0)).
  - vm_compute; intuition discriminate.
  - vm_compute; reflexivity.
Defined.

(** The two moments of the specification: one second before 04:00 and
    04:00 sharp; and a date before 04:00 on the first of January and of
    March in a leap year. *)
Example service_day_examples :
  get_current_file_date (mk_datetime 2025 3 1 3 59 0) = Ok "departures/2025-02-28"
  /\ get_current_file_date (mk_datetime 2025 3 1 4 0 0) = Ok "departures/2025-03-01"
  /\ get_current_file_date (mk_datetime 2024 3 1 0 0 0) = Ok "departures/2024-02-29"
  /\ get_current_file_date (mk_datetime 2025 1 1 3 59 59) = Ok "departures/2024-12-31"
  /\ get_current_file_date (mk_datetime 2025 1 1 23 59 59) = Ok "departures/2025-01-01".
Proof. repeat split; vm_compute; reflexivity. Qed.

(** ** The daily file *)

Lemma bucket_no_sep now d : bucket now = Ok d -> all_chars not_sep d = true.
Proof.
  unfold bucket. intros H. apply bind_inv_Ok in H as (b & _ & H).
  injection H as <-. apply strftime_date_no_sep.
Qed.

Lemma get_current_file_date_bucket now :
  get_current_file_date now = (d ← bucket now; mret ("departures/" +:+ d)).
Proof.
  rewrite get_current_file_date_service_day. unfold bucket.
  destruct (service_day now); reflexivity.
Qed.

Lemma daily_file_not_directory d : daily_file d <> "departures".
Proof. unfold daily_file. simpl. discriminate. Qed.

Lemma csv_name_no_sep d :
  all_chars not_sep d = true -> all_chars not_sep ("departures_" +:+ d +:+ ".csv") = true.
Proof. intros H. rewrite !all_chars_app, H. reflexivity. Qed.

Lemma daily_file_parent d :
  all_chars not_sep d = true -> OsPath.dirname (daily_file d) = "departures".
Proof.
  intros H. change (daily_file d) with ("departures/" +:+ ("departures_" +:+ d +:+ ".csv")).
  apply dirname_departures, csv_name_no_sep, H.
Qed.

(** The writer, once the date is known. *)
Lemma save_to_csv_unfold now d r rs w :
  bucket now = Ok d ->
  save_to_csv now (r :: rs) w
  = (w1 ← makedirs "departures" w;
     let '(present, w2) := path_exists (daily_file d) w1 in
     if present then to_csv_append (daily_file d) (DataFrame (r :: rs)) w2
     else to_csv_create (daily_file d) (DataFrame (r :: rs)) w2).
Proof.
  intros Hb. pose proof (bucket_no_sep _ _ Hb) as Hd.
  unfold save_to_csv. rewrite get_current_file_date_bucket, Hb, !bind_Ok.
  cbv beta. unfold csv_name.
  rewrite (dirname_departures d Hd), (basename_departures d Hd).
  rewrite join_departures by reflexivity. reflexivity.
Qed.

Lemma makedirs_departures w :
  (forall c, fs w !! "departures" <> Some (File c)) ->
  makedirs "departures" w
  = Ok (mk_world (<["departures" := Dir]> (fs w)) (trace w ++ [EvMkdir "departures"])).
Proof.
  intros Hnf. unfold makedirs.
  change (OsPath.chain "departures") with ["departures"].
  cbn [PyStr.is_empty log fs trace makedirs_chain].
  destruct (fs w !! "departures") as [[|c]|] eqn:E.
  - rewrite (insert_id _ _ _ E). reflexivity.
  - exfalso. apply (Hnf c). reflexivity.
  - reflexivity.
Qed.

Lemma save_to_csv_first now d recs w :
  recs <> [] -> bucket now = Ok d ->
  (forall c, fs w !! "departures" <> Some (File c)) ->
  fs w !! daily_file d = None ->
  save_to_csv now recs w
  = Ok (written d (COLUMNS :: DataFrame recs) (EvCreate (daily_file d)) w).
Proof.
  intros Hne Hb Hnf Hnew. destruct recs as [|r rs]; [congruence|].
  rewrite (save_to_csv_unfold _ _ _ _ _ Hb), (makedirs_departures _ Hnf), bind_Ok.
  unfold path_exists, to_csv_create, parent_is_dir, log, set_fs, written.
  cbn [fs trace].
  rewrite (daily_file_parent d (bucket_no_sep _ _ Hb)).
  rewrite lookup_insert_ne by (symmetry; apply daily_file_not_directory).
  rewrite Hnew, lookup_insert_eq. cbn [PyStr.is_empty orb].
  rewrite <- !List.app_assoc. reflexivity.
Qed.

Lemma save_to_csv_next now d recs w old :
  recs <> [] -> bucket now = Ok d ->
  (forall c, fs w !! "departures" <> Some (File c)) ->
  fs w !! daily_file d = Some (File old) ->
  save_to_csv now recs w
  = Ok (written d (old ++ DataFrame recs) (EvAppend (daily_file d)) w).
Proof.
  intros Hne Hb Hnf Hold. destruct recs as [|r rs]; [congruence|].
  rewrite (save_to_csv_unfold _ _ _ _ _ Hb), (makedirs_departures _ Hnf), bind_Ok.
  unfold path_exists, to_csv_append, log, set_fs, written.
  cbn [fs trace].
  rewrite lookup_insert_ne by (symmetry; apply daily_file_not_directory).
  rewrite Hold. rewrite <- !List.app_assoc. reflexivity.
Qed.

Lemma written_lookup_file d content last w :
  fs (written d content last w) !! daily_file d = Some (File content).
Proof. unfold written. cbn [fs]. apply lookup_insert_eq. Qed.

Lemma written_lookup_directory d content last w :
  fs (written d content last w) !! "departures" = Some Dir.
Proof.
  unfold written. cbn [fs].
  rewrite lookup_insert_ne by apply daily_file_not_directory.
  apply lookup_insert_eq.
Qed.

Lemma written_lookup_other d content last w p :
  p <> daily_file d -> p <> "departures" ->
  fs (written d content last w) !! p = fs w !! p.
Proof.
  intros H1 H2. unfold written. cbn [fs].
  rewrite !lookup_insert_ne by congruence. reflexivity.
Qed.

(** A data row is never the header row: its ninth cell is a numeral. *)
Lemma row_of_not_header r : row_of r <> COLUMNS.
Proof.
  unfold row_of, COLUMNS. intros H.
  injection H as _ _ _ _ _ _ _ _ Hcar _.
  pose proof (str_of_nat_all_digits (car_sections r)) as Hd.
  rewrite Hcar in Hd. vm_compute in Hd. discriminate.
Qed.

Lemma count_rows_cons row r rows :
  count_rows row (r :: rows)
  = (if bool_decide (r = row) then 1 else 0) + count_rows row rows.
Proof. unfold count_rows. simpl. destruct (bool_decide (r = row)); reflexivity. Qed.

Lemma count_rows_app row l1 l2 :
  count_rows row (l1 ++ l2) = count_rows row l1 + count_rows row l2.
Proof. unfold count_rows. rewrite List.filter_app, List.length_app. reflexivity. Qed.

Lemma no_header_in_DataFrame recs : count_rows COLUMNS (DataFrame recs) = 0.
Proof.
  induction recs as [|r recs IH]; [reflexivity|].
  unfold DataFrame in *. simpl map. rewrite count_rows_cons, IH.
  rewrite bool_decide_eq_false_2 by apply row_of_not_header. reflexivity.
Qed.

Lemma no_header_in_runs (runs : list (datetime * list DepartureRecord)) :
  count_rows COLUMNS (flat_map (fun run => DataFrame (snd run)) runs) = 0.
Proof.
  induction runs as [|run runs IH]; [reflexivity|].
  simpl. rewrite count_rows_app, no_header_in_DataFrame, IH. reflexivity.
Qed.

(** Later runs of a bucket: each one appends its rows. *)
Lemma save_runs_append d rest : forall w old,
  Forall (in_bucket d) rest ->
  fs w !! "departures" = Some Dir ->
  fs w !! daily_file d = Some (File old) ->
  exists w',
    save_runs rest w = Ok w'
    /\ fs w' !! "departures" = Some Dir
    /\ fs w' !! daily_file d
       = Some (File (old ++ flat_map (fun run => DataFrame (snd run)) rest)).
Proof.
  induction rest as [|[now recs] rest IH]; intros w old Hall Hdir Hfile.
  - exists w. simpl. rewrite List.app_nil_r. auto.
  - apply Forall_cons in Hall as [[Hb Hne] Hall]. simpl in Hb, Hne.
    assert (Hnf : forall c, fs w !! "departures" <> Some (File c))
      by (intros c; rewrite Hdir; discriminate).
    simpl save_runs. rewrite (save_to_csv_next _ _ _ _ _ Hne Hb Hnf Hfile), bind_Ok.
    destruct (IH (written d (old ++ DataFrame recs) (EvAppend (daily_file d)) w)
                (old ++ DataFrame recs) Hall
                (written_lookup_directory _ _ _ _) (written_lookup_file _ _ _ _))
      as (w' & Hrun & Hdir' & Hfile').
    exists w'. repeat split; [exact Hrun | exact Hdir' |].
    rewrite Hfile'. simpl. rewrite <- List.app_assoc. reflexivity.
Qed.

(** C6. Within one service day, starting without the daily file: the
    first write creates the file as the header row followed by its records,
    every later write of that day only adds its rows at the end, and so
    after any number of runs the file is the header, once, followed by the
    rows of all runs in run order. *)
Theorem one_header_then_rows_in_run_order :
  forall (d : string) (first : datetime * list DepartureRecord)
         (rest : list (datetime * list DepartureRecord)) (w : world),
    Forall (in_bucket d) (first :: rest) ->
    (forall c, fs w !! "departures" <> Some (File c)) ->
    fs w !! daily_file d = None ->
    exists w1 w',
      save_to_csv (fst first) (snd first) w = Ok w1
      /\ fs w1 !! daily_file d = Some (File (COLUMNS :: DataFrame (snd first)))
      /\ save_runs (first :: rest) w = Ok w'
      /\ fs w' !! daily_file d
         = Some (File (COLUMNS :: flat_map (fun run => DataFrame (snd run))
                                           (first :: rest)))
      /\ count_rows COLUMNS
           (COLUMNS :: flat_map (fun run => DataFrame (snd run)) (first :: rest)) = 1.
Proof.
  intros d [now recs] rest w Hall Hnf Hnew.
  apply Forall_cons in Hall as [[Hb Hne] Hall]. simpl in Hb, Hne.
  pose proof (save_to_csv_first _ _ _ _ Hne Hb Hnf Hnew) as Hfirst.
  destruct (save_runs_append d rest
              (written d (COLUMNS :: DataFrame recs) (EvCreate (daily_file d)) w)
              (COLUMNS :: DataFrame recs) Hall
              (written_lookup_directory _ _ _ _) (written_lookup_file _ _ _ _))
    as (w' & Hrun & _ & Hfile').
  eexists _, w'. simpl fst. simpl snd.
  split; [exact Hfirst|]. split; [apply written_lookup_file|].
  split; [simpl save_runs; rewrite Hfirst, bind_Ok; exact Hrun|].
  split; [rewrite Hfile'; reflexivity|].
  rewrite count_rows_cons, bool_decide_eq_true_2 by reflexivity.
  rewrite (no_header_in_runs ((now, recs) :: rest)). reflexivity.
Qed.

(** C2 (amended). For a non-empty list of records, [save_to_csv] puts the
    rows at the end of the file [departures/departures_<YYYY-MM-DD>.csv],
    directly in the directory [departures], where the date is that of the
    current service day: what the file held stays in front of the new rows,
    and a file that was not there starts with the header row; no other
    file is touched. *)
Theorem save_to_csv_daily_file :
  forall now (d : string) recs (w : world),
    recs <> [] ->
    bucket now = Ok d ->
    (forall c, fs w !! "departures" <> Some (File c)) ->
    fs w !! daily_file d <> Some Dir ->
    exists w',
      save_to_csv now recs w = Ok w'
      /\ fs w' !! daily_file d
         = Some (File (match fs w !! daily_file d with
                       | Some (File before) => before ++ DataFrame recs
                       | _ => COLUMNS :: DataFrame recs
                       end))
      /\ fs w' !! "departures" = Some Dir
      /\ forall p, p <> daily_file d -> p <> "departures" -> fs w' !! p = fs w !! p.
Proof.
  intros now d recs w Hne Hb Hnf Hnd.
  destruct (fs w !! daily_file d) as [[|old]|] eqn:E; [congruence| |].
  - eexists. split; [apply (save_to_csv_next _ _ _ _ _ Hne Hb Hnf E)|].
    split; [apply written_lookup_file|].
    split; [apply written_lookup_directory|]. intros p. apply written_lookup_other.
  - eexists. split; [apply (save_to_csv_first _ _ _ _ Hne Hb Hnf E)|].
    split; [apply written_lookup_file|].
    split; [apply written_lookup_directory|]. intros p. apply written_lookup_other.
Qed.

(** C2 (as stated) fails: after a write on 2025-03-01 there is nothing at
    [departures/2025-03-01/departures_2025-03-01.csv], nor a directory
    [departures/2025-03-01]; the rows are in
    [departures/departures_2025-03-01.csv]. *)
Lemma save_to_csv_path_counterexample :
  exists w',
    save_to_csv Sample.morning [Sample.record] Sample.fresh = Ok w'
    /\ fs w' !! "departures/2025-03-01/departures_2025-03-01.csv" = None
    /\ fs w' !! "departures/2025-03-01" = None
    /\ fs w' !! "departures/departures_2025-03-01.csv"
       = Some (File [COLUMNS; row_of Sample.record]).
Proof.
  eexists. split; [vm_compute; reflexivity|].
  repeat split; vm_compute; reflexivity.
Qed.

(** C8. With no records, [save_to_csv] returns at once: the file system
    is the one it was given and no operation is added to the trace. *)
Theorem save_to_csv_empty_no_io : forall now (w : world), save_to_csv now [] w = Ok w.
Proof. reflexivity. Qed.

(** A write at half past one in the night, the file of the day before
    holding the header and one row: the new row goes after them. *)
Lemma save_to_csv_daily_file_witness :
  exists w',
    save_to_csv Sample.after_midnight [Sample.later_record] Sample.used = Ok w'
    /\ fs w' !! daily_file "2025-03-01"
       = Some (File [COLUMNS; row_of Sample.record; row_of Sample.later_record])
    /\ fs w' !! "departures" = Some Dir
    /\ forall p, p <> daily_file "2025-03-01" -> p <> "departures" ->
                 fs w' !! p = fs Sample.used !! p.
Proof.
  destruct (save_to_csv_daily_file Sample.after_midnight "2025-03-01"
              [Sample.later_record] Sample.used)
    as (w' & Hsave & Hfile & Hdir & Hother).
  - discriminate.
  - vm_compute. reflexivity.
  - intros c. vm_compute. discriminate.
  - vm_compute. discriminate.
  - exists w'. split; [exact Hsave|].
    split; [rewrite Hfile; vm_compute; reflexivity|].
    split; [exact Hdir | exact Hother].
Defined.

(** The same write when the file is not there: it starts with the header. *)
Example save_to_csv_creates_with_header :
  exists w',
    save_to_csv Sample.morning [Sample.record] Sample.fresh = Ok w'
    /\ fs w' !! daily_file "2025-03-01" = Some (File [COLUMNS; row_of Sample.record]).
Proof.
  eexists. split; vm_compute; reflexivity.
Qed.

(** A run in the morning and a run at half past one in the following
    night fall in the same service day. *)
Lemma one_header_then_rows_in_run_order_witness :
  exists w1 w',
    save_to_csv Sample.morning [Sample.record] Sample.fresh = Ok w1
    /\ fs w1 !! daily_file "2025-03-01"
       = Some (File (COLUMNS :: DataFrame [Sample.record]))
    /\ save_runs [(Sample.morning, [Sample.record]);
                  (Sample.after_midnight, [Sample.later_record])] Sample.fresh
       = Ok w'
    /\ fs w' !! daily_file "2025-03-01"
       = Some (File (COLUMNS :: flat_map (fun run => DataFrame (snd run))
                                  [(Sample.morning, [Sample.record]);
                                   (Sample.after_midnight, [Sample.later_record])]))
    /\ count_rows COLUMNS
         (COLUMNS :: flat_map (fun run => DataFrame (snd run))
                       [(Sample.morning, [Sample.record]);
                        (Sample.after_midnight, [Sample.later_record])]) = 1.
Proof.
  apply (one_header_then_rows_in_run_order "2025-03-01"
           (Sample.morning, [Sample.record])
           [(Sample.after_midnight, [Sample.later_record])] Sample.fresh).
  - repeat constructor; simpl; try discriminate; vm_compute; reflexivity.
  - intros c. vm_compute. discriminate.
  - vm_compute. reflexivity.
Defined.

(** The file after the two runs above. *)
Example two_runs_one_file :
  exists w',
    save_runs [(Sample.morning, [Sample.record]);
               (Sample.after_midnight, [Sample.later_record])] Sample.fresh = Ok w'
    /\ fs w' !! "departures/departures_2025-03-01.csv"
       = Some (File [COLUMNS; row_of Sample.record; row_of Sample.later_record])
    /\ fs w' !! "departures/departures_2025-03-02.csv" = None.
Proof.
  eexists. split; [vm_compute; reflexivity|]. split; vm_compute; reflexivity.
Qed.

(** ** More on the entries of a page *)

Lemma build_record_fields now station destination item r :
  build_record now station destination item = Ok r ->
  exists l,
    item_line item = Ok l
    /\ r = mk_departure (Calendar.strftime_timestamp now) station destination l
             (labelled_value "Train" item)
             (text_or_empty (Soup.find "strong" [("class", Is "h2")] item))
             (text_or_empty (Soup.find "strong" [("class", Is "h3")] item))
             (labelled_value "Track" item)
             (total_sections (parse_occupancy item)) (light (parse_occupancy item))
             (medium (parse_occupancy item)) (heavy (parse_occupancy item))
             (no_data (parse_occupancy item)).
Proof.
  unfold build_record. intros H. apply bind_inv_Ok in H as (l & Hl & H).
  exists l. split; [exact Hl|]. injection H as <-. reflexivity.
Qed.

Lemma scrape_item_fields flt now station item r :
  scrape_item flt now station item = Ok (Some r) ->
  exists d l,
    item_destination item = Ok d /\ filtered_out flt d = false /\ item_line item = Ok l
    /\ r = mk_departure (Calendar.strftime_timestamp now) station d l
             (labelled_value "Train" item)
             (text_or_empty (Soup.find "strong" [("class", Is "h2")] item))
             (text_or_empty (Soup.find "strong" [("class", Is "h3")] item))
             (labelled_value "Track" item)
             (total_sections (parse_occupancy item)) (light (parse_occupancy item))
             (medium (parse_occupancy item)) (heavy (parse_occupancy item))
             (no_data (parse_occupancy item)).
Proof.
  intros H. apply scrape_item_inv in H as (d & Hd & Hf & Hb).
  apply build_record_fields in Hb as (l & Hl & ->). exists d, l. auto.
Qed.

(** X1. With a non-empty filter, every record [scrape_departures] returns
    has a destination in which the filter occurs, letter case apart. *)
Theorem filtered_page_only_matching_destinations :
  forall (f : string) web clock url station recs r,
    f <> EmptyString ->
    scrape_departures (Some f) web clock url station = Ok recs ->
    In r recs ->
    PyStr.contains (PyStr.lower f) (PyStr.lower (destination r)) = true.
Proof.
  intros f web clock url station recs r Hf Hrun Hin.
  destruct (scrape_departures_origin _ _ _ _ _ _ _ Hrun Hin)
    as (soup & i & item & _ & _ & Hr).
  apply scrape_item_fields in Hr as (d & l & _ & Hflt & _ & ->). simpl.
  unfold filtered_out in Hflt. rewrite (truthy_nonempty f Hf) in Hflt.
  simpl in Hflt. apply negb_false_iff in Hflt. exact Hflt.
Qed.

(** X2. Every record [scrape_departures] returns carries the station name
    it was called with and, as time stamp, the formatted reading of the
    clock that was taken for its own entry. *)
Theorem records_carry_station_and_timestamp :
  forall flt web clock url name recs r,
    scrape_departures flt web clock url name = Ok recs ->
    In r recs ->
    station r = name
    /\ exists soup i item,
         web url = Ok soup
         /\ nth_error (departure_items soup) i = Some item
         /\ scrape_item flt (clock i) name item = Ok (Some r)
         /\ timestamp r = Calendar.strftime_timestamp (clock i).
Proof.
  intros flt web clock url name recs r Hrun Hin.
  destruct (scrape_departures_origin _ _ _ _ _ _ _ Hrun Hin)
    as (soup & i & item & Hweb & Hnth & Hr).
  pose proof Hr as Hitem.
  apply scrape_item_fields in Hr as (d & l & _ & _ & _ & ->).
  split; [reflexivity|]. exists soup, i, item. auto.
Qed.

Lemma kept_yields flt now station item :
  List.length (kept flt now station item) = if yields_record flt item then 1 else 0.
Proof.
  unfold kept, yields_record, scrape_item, build_record.
  destruct (item_destination item) as [d|e]; [|reflexivity]. rewrite bind_Ok.
  destruct (filtered_out flt d); [destruct (item_line item); reflexivity|].
  destruct (item_line item) as [l|e]; reflexivity.
Qed.

Lemma length_flat_map_kept flt clock station items : forall k,
  List.length (flat_map (kept_at flt clock station) (enumerate_from k items))
  = List.length (List.filter (yields_record flt) items).
Proof.
  induction items as [|item items IH]; intros k; [reflexivity|].
  simpl. unfold kept_at at 1. simpl. rewrite List.length_app, kept_yields, IH.
  destruct (yields_record flt item); reflexivity.
Qed.

(** X3. An entry adds a record to the list exactly when its destination
    element is there, the filter lets the destination through and its line
    element is there: a missing line element drops the entry just as a
    missing destination does. *)
Theorem entry_yields_record_iff :
  forall flt now station item,
    (exists r, kept flt now station item = [r])
    <-> (exists destination l,
           item_destination item = Ok destination
           /\ filtered_out flt destination = false
           /\ item_line item = Ok l).
Proof.
  intros flt now station item. split.
  - intros [r Hr]. unfold kept in Hr.
    destruct (scrape_item flt now station item) as [[r'|]|e] eqn:E; try discriminate.
    apply scrape_item_fields in E as (d & l & Hd & Hf & Hl & _). eauto.
  - intros (d & l & Hd & Hf & Hl).
    unfold kept, scrape_item, build_record. rewrite Hd, bind_Ok, Hf, Hl, !bind_Ok.
    eexists. reflexivity.
Qed.

(** X4. For a page that was fetched, [scrape_departures] returns as many
    records as the page has entries that give a record, never more than the
    page has entries. *)
Theorem page_record_count :
  forall flt web clock url station soup,
    web url = Ok soup ->
    exists recs,
      scrape_departures flt web clock url station = Ok recs
      /\ List.length recs
         = List.length (List.filter (yields_record flt) (departure_items soup))
      /\ List.length recs <= List.length (departure_items soup).
Proof.
  intros flt web clock url station soup Hweb.
  exists (collect flt clock station (departure_items soup)).
  split; [apply scrape_departures_page; exact Hweb|].
  rewrite collect_flat_map. unfold enumerate. rewrite length_flat_map_kept.
  split; [reflexivity|]. apply List.filter_length_le.
Qed.

Lemma filter_none {A} (P : A -> bool) l :
  (forall x, In x l -> P x = false) -> List.filter P l = [].
Proof.
  induction l as [|x l IH]; intros H; [reflexivity|].
  simpl. rewrite (H x) by (left; reflexivity). apply IH. intros y Hy. apply H. right. exact Hy.
Qed.

Lemma labelled_value_absent label item :
  (forall t, In t (Soup.strings_of item) -> PyStr.contains label t = false) ->
  labelled_value label item = EmptyString.
Proof.
  intros H. unfold labelled_value, Soup.find_text.
  rewrite filter_none; [reflexivity|].
  intros t Ht. rewrite (H t Ht). apply andb_false_r.
Qed.

(** X5. In a record, the train number, the track, the departure time and
    the status are the empty string when the entry has no text with the
    label [Train], no text with the label [Track], no [h2] element and no
    [h3] element respectively: none of them is needed for a record. *)
Theorem optional_fields_default_to_empty :
  forall flt now station item r,
    scrape_item flt now station item = Ok (Some r) ->
    ((forall t, In t (Soup.strings_of item) -> PyStr.contains "Train" t = false) ->
       train_number r = EmptyString)
    /\ ((forall t, In t (Soup.strings_of item) -> PyStr.contains "Track" t = false) ->
       track r = EmptyString)
    /\ (Soup.find "strong" [("class", Is "h2")] item = None ->
       departure_time r = EmptyString)
    /\ (Soup.find "strong" [("class", Is "h3")] item = None ->
       status r = EmptyString).
Proof.
  intros flt now station item r Hr.
  apply scrape_item_fields in Hr as (d & l & _ & _ & _ & ->). simpl.
  repeat split.
  - apply labelled_value_absent.
  - apply labelled_value_absent.
  - intros ->. reflexivity.
  - intros ->. reflexivity.
Qed.

Lemma lstrip_length s : String.length (PyStr.lstrip s) <= String.length s.
Proof.
  induction s as [|c s IH]; simpl; [lia|].
  destruct (PyStr.is_space c); simpl; lia.
Qed.

Lemma lstrip_fixed_head c s :
  PyStr.lstrip (String c s) = String c s -> PyStr.is_space c = false.
Proof.
  simpl. destruct (PyStr.is_space c); [|reflexivity].
  intros H. pose proof (lstrip_length s) as L. rewrite H in L. simpl in L. lia.
Qed.

Lemma lstrip_idempotent s : PyStr.lstrip (PyStr.lstrip s) = PyStr.lstrip s.
Proof.
  induction s as [|c s IH]; [reflexivity|].
  simpl. destruct (PyStr.is_space c) eqn:E; [exact IH|].
  simpl. rewrite E. reflexivity.
Qed.

Lemma rstrip_idempotent s : PyStr.rstrip (PyStr.rstrip s) = PyStr.rstrip s.
Proof.
  induction s as [|c s IH]; [reflexivity|].
  simpl. destruct (PyStr.is_space c && PyStr.is_empty (PyStr.rstrip s)) eqn:E;
    [reflexivity|].
  simpl. rewrite IH, E. reflexivity.
Qed.

Lemma rstrip_keeps_lstrip s :
  PyStr.lstrip s = s -> PyStr.lstrip (PyStr.rstrip s) = PyStr.rstrip s.
Proof.
  destruct s as [|c s]; [reflexivity|]. intros H.
  pose proof (lstrip_fixed_head c s H) as Hc.
  simpl. rewrite Hc. simpl. rewrite Hc. reflexivity.
Qed.

Lemma strip_trimmed s : trimmed (PyStr.strip s).
Proof.
  unfold trimmed, PyStr.strip. split.
  - apply rstrip_keeps_lstrip, lstrip_idempotent.
  - apply rstrip_idempotent.
Qed.

Lemma empty_trimmed : trimmed EmptyString.
Proof. split; reflexivity. Qed.

Lemma labelled_value_trimmed label item : trimmed (labelled_value label item).
Proof.
  unfold labelled_value. destruct (Soup.find_text label item);
    [apply strip_trimmed | apply empty_trimmed].
Qed.

Lemma text_or_empty_trimmed found : trimmed (text_or_empty found).
Proof.
  unfold text_or_empty. destruct found; [apply strip_trimmed | apply empty_trimmed].
Qed.

Lemma item_destination_trimmed item d : item_destination item = Ok d -> trimmed d.
Proof.
  unfold item_destination. intros H. apply bind_inv_Ok in H as (t & _ & H).
  injection H as <-. apply strip_trimmed.
Qed.

Lemma item_line_trimmed item l : item_line item = Ok l -> trimmed l.
Proof.
  unfold item_line. intros H. apply bind_inv_Ok in H as (t & _ & H).
  injection H as <-. apply strip_trimmed.
Qed.

(** X6. The six text fields read from the markup (destination, line, train
    number, departure time, status, track) have no white space at either
    end in any record [scrape_departures] returns. *)
Theorem record_text_fields_are_trimmed :
  forall flt web clock url station recs r,
    scrape_departures flt web clock url station = Ok recs ->
    In r recs ->
    trimmed (destination r) /\ trimmed (line r) /\ trimmed (train_number r)
    /\ trimmed (departure_time r) /\ trimmed (status r) /\ trimmed (track r).
Proof.
  intros flt web clock url station recs r Hrun Hin.
  destruct (scrape_departures_origin _ _ _ _ _ _ _ Hrun Hin)
    as (soup & i & item & _ & _ & Hr).
  apply scrape_item_fields in Hr as (d & l & Hd & _ & Hl & ->). simpl.
  repeat split;
    first [ apply (item_destination_trimmed item d Hd)
          | apply (item_line_trimmed item l Hl)
          | apply labelled_value_trimmed
          | apply text_or_empty_trimmed ].
Qed.


Lemma unknown_dot_level d : known_colour d = false -> dot_level d = NoData.
Proof.
  unfold known_colour, dot_level. simpl. intros H.
  apply orb_false_iff in H as [H H3]. apply orb_false_iff in H as [H1 H2].
  rewrite H1, H2, H3. reflexivity.
Qed.

Lemma count_level_unknown lv dots :
  (forall d, In d dots -> known_colour d = false) ->
  count_level lv dots = if level_eqb NoData lv then List.length dots else 0.
Proof.
  induction dots as [|d dots IH]; intros H.
  - destruct (level_eqb NoData lv); reflexivity.
  - rewrite count_level_cons, IH by (intros d' Hd'; apply H; right; exact Hd').
    rewrite (unknown_dot_level d) by (apply H; left; reflexivity).
    destruct (level_eqb NoData lv); reflexivity.
Qed.

(** X7. When no dot of an entry shows one of the three known colours (the
    style attribute may be missing altogether), [parse_occupancy] counts
    every dot as no_data: light, medium and heavy are 0. *)
Theorem unknown_colours_count_as_no_data :
  forall item,
    (forall d, In d (item_dots item) -> known_colour d = false) ->
    parse_occupancy item
    = mk_occupancy (List.length (item_sections item)) 0 0 0
        (List.length (item_dots item)).
Proof.
  intros item H.
  destruct (parse_occupancy_fields item) as (Ht & Hl & Hm & Hh & Hn).
  rewrite (count_level_unknown Light _ H) in Hl.
  rewrite (count_level_unknown Medium _ H) in Hm.
  rewrite (count_level_unknown Heavy _ H) in Hh.
  rewrite (count_level_unknown NoData _ H) in Hn. simpl in Hl, Hm, Hh, Hn.
  destruct (parse_occupancy item) as [t l m h n]. simpl in *. congruence.
Qed.

(** ** Reading dates back, and more on the daily files *)

Lemma digit_code n : PyStr.code (PyStr.digit n) - 48 = n mod 10.
Proof.
  unfold PyStr.code, PyStr.digit.
  pose proof (Nat.mod_upper_bound n 10 ltac:(lia)) as H.
  rewrite nat_ascii_embedding by lia. lia.
Qed.

Lemma digits_value_cons acc c r :
  digits_value acc (String c r) = digits_value (acc * 10 + (PyStr.code c - 48)) r.
Proof. reflexivity. Qed.

Lemma digits_value_nil acc : digits_value acc EmptyString = acc.
Proof. reflexivity. Qed.

Lemma digits_value_app s t : forall acc,
  digits_value acc (s +:+ t) = digits_value (digits_value acc s) t.
Proof.
  induction s as [|c s IH]; intros acc; [reflexivity|].
  change (String c s +:+ t) with (String c (s +:+ t)).
  rewrite !digits_value_cons. apply IH.
Qed.


Lemma append_assoc a b c : (a +:+ b) +:+ c = a +:+ (b +:+ c).
Proof.
  induction a as [|x a IH]; [reflexivity|].
  change (String x ((a +:+ b) +:+ c) = String x (a +:+ (b +:+ c))).
  rewrite IH. reflexivity.
Qed.

Lemma append_length a b : String.length (a +:+ b) = String.length a + String.length b.
Proof.
  induction a as [|x a IH]; [reflexivity|].
  change (S (String.length (a +:+ b)) = S (String.length a) + String.length b).
  rewrite IH. reflexivity.
Qed.

Lemma digits_from_app fuel : forall n rest,
  PyStr.digits_from fuel n rest = PyStr.digits_from fuel n EmptyString +:+ rest.
Proof.
  induction fuel as [|fuel IH]; intros n rest; [reflexivity|].
  rewrite !digits_from_S. destruct (n / 10 =? 0); [reflexivity|].
  rewrite IH, (IH _ (String _ EmptyString)), append_assoc. reflexivity.
Qed.

Lemma digits_value_numeral fuel : forall n acc,
  n < 10 ^ S fuel ->
  digits_value acc (PyStr.digits_from fuel n EmptyString)
  = acc * 10 ^ String.length (PyStr.digits_from fuel n EmptyString) + n.
Proof.
  assert (Hsmall : forall n acc, n / 10 = 0 ->
            digits_value acc (String (PyStr.digit n) EmptyString)
            = acc * 10 ^ 1 + n).
  { intros n acc Hq.
    rewrite digits_value_cons, digits_value_nil, digit_code, Nat.pow_1_r.
    pose proof (Nat.div_mod_eq n 10). lia. }
  induction fuel as [|fuel IH]; intros n acc Hn.
  - rewrite digits_from_O. apply Hsmall. apply Nat.div_small.
    rewrite Nat.pow_1_r in Hn. exact Hn.
  - rewrite digits_from_S. destruct (Nat.eqb_spec (n / 10) 0) as [Hq|Hq].
    + apply Hsmall, Hq.
    + rewrite digits_from_app, digits_value_app, append_length.
      rewrite IH by (apply Nat.Div0.div_lt_upper_bound;
                     rewrite Nat.pow_succ_r' in Hn; exact Hn).
      change (String.length (String (PyStr.digit n) EmptyString)) with 1.
      rewrite Nat.add_1_r, Nat.pow_succ_r'.
      rewrite digits_value_cons, digits_value_nil, digit_code.
      pose proof (Nat.div_mod_eq n 10). lia.
Qed.

Lemma str_of_nat_value n : digits_value 0 (PyStr.str_of_nat n) = n.
Proof.
  unfold PyStr.str_of_nat. rewrite digits_value_numeral; [lia|].
  pose proof (Nat.pow_gt_lin_r 10 n ltac:(lia)). rewrite Nat.pow_succ_r'. lia.
Qed.

Lemma zeros_value k : digits_value 0 (PyStr.concat_all (List.repeat "0" k)) = 0.
Proof.
  induction k as [|k IH]; [reflexivity|].
  change (PyStr.concat_all (List.repeat "0" (S k)))
    with (String "0" (PyStr.concat_all (List.repeat "0" k))).
  rewrite digits_value_cons. exact IH.
Qed.

(** Reading back a formatted field gives the number that was formatted. *)
Lemma fmt_value width z : digits_value 0 (Calendar.fmt width z) = Z.to_nat z.
Proof.
  unfold Calendar.fmt, PyStr.zfill.
  rewrite digits_value_app, zeros_value. apply str_of_nat_value.
Qed.

Lemma fmt_all_digits width z : all_chars is_digit (Calendar.fmt width z) = true.
Proof.
  unfold Calendar.fmt, PyStr.zfill.
  rewrite all_chars_app, all_chars_zeros by reflexivity.
  apply str_of_nat_all_digits.
Qed.

Lemma split_hyphen_digits x r :
  all_chars is_digit x = true -> split_hyphen (x +:+ String "-" r) = (x, r).
Proof.
  induction x as [|c x IH]; intros H; [reflexivity|].
  rewrite all_chars_cons in H. apply andb_true_iff in H as [Hc Hx].
  change (String c x +:+ String "-" r) with (String c (x +:+ String "-" r)).
  cbn [split_hyphen]. rewrite (IH Hx).
  destruct (Ascii.eqb_spec c "-"%char) as [->|_]; [discriminate Hc | reflexivity].
Qed.

Lemma parse_date_strftime t :
  parse_date (Calendar.strftime_date t)
  = (Z.to_nat (year t), Z.to_nat (month t), Z.to_nat (day t)).
Proof.
  unfold parse_date, Calendar.strftime_date.
  change ("-" +:+ ?x) with (String "-" x).
  rewrite split_hyphen_digits by apply fmt_all_digits.
  change ("-" +:+ ?x) with (String "-" x).
  rewrite split_hyphen_digits by apply fmt_all_digits.
  rewrite !fmt_value. reflexivity.
Qed.

Lemma strftime_date_inj a b :
  Calendar.valid_date (year a) (month a) (day a) ->
  Calendar.valid_date (year b) (month b) (day b) ->
  Calendar.strftime_date a = Calendar.strftime_date b -> date_of a = date_of b.
Proof.
  intros (Hya & Hma & Hda) (Hyb & Hmb & Hdb) H.
  apply (f_equal parse_date) in H. rewrite !parse_date_strftime in H.
  injection H as Hy Hm Hd. unfold date_of.
  apply Z2Nat.inj in Hy, Hm, Hd; try lia. congruence.
Qed.

Section MoreCalendar.

Import Calendar.
Local Open Scope Z_scope.

Lemma minus_one_day_valid_date t p :
  valid_date (year t) (month t) (day t) -> minus_one_day t = Ok p ->
  valid_date (year p) (month p) (day p).
Proof.
  intros (Hy & Hm & Hd). unfold minus_one_day.
  destruct (Z.ltb_spec 1 (day t)) as [Hd1|Hd1]; [intros E; injection E as <-; simpl|].
  { repeat split; lia. }
  destruct (Z.ltb_spec 1 (month t)) as [Hm1|Hm1]; [intros E; injection E as <-; simpl|].
  { pose proof (days_in_month_bounds (year t) (month t - 1) ltac:(lia)).
    repeat split; lia. }
  destruct (Z.ltb_spec 1 (year t)) as [Hy1|Hy1];
    [intros E; injection E as <-; simpl|discriminate].
  assert (days_in_month (year t - 1) 12 = 31) as E31 by reflexivity.
  repeat split; lia.
Qed.

Lemma service_day_valid_date now b :
  valid now -> service_day now = Ok b -> valid_date (year b) (month b) (day b).
Proof.
  intros (Hd & _). unfold service_day. destruct (hour now <? 4).
  - apply minus_one_day_valid_date, Hd.
  - intros H. injection H as <-. exact Hd.
Qed.

End MoreCalendar.

Lemma append_cancel_r c : forall a b, a +:+ c = b +:+ c -> a = b.
Proof.
  assert (Hlen : forall x y, String.length (String x y +:+ c) <> String.length c).
  { intros x y. change (String x y +:+ c) with (String x (y +:+ c)).
    simpl String.length. rewrite append_length. lia. }
  induction a as [|x a IH]; intros [|y b] H.
  - reflexivity.
  - exfalso. apply (Hlen y b). rewrite <- H. reflexivity.
  - exfalso. apply (Hlen x a). rewrite H. reflexivity.
  - change (String x (a +:+ c) = String y (b +:+ c)) in H.
    injection H as -> H. rewrite (IH _ H). reflexivity.
Qed.

Lemma daily_file_inj d1 d2 : daily_file d1 = daily_file d2 -> d1 = d2.
Proof.
  unfold daily_file. intros H.
  apply (String.app_inj "departures/departures_") in H.
  apply append_cancel_r in H. exact H.
Qed.

(** X8. For two valid moments, [get_current_file_date] returns the same path
    exactly when their service days are the same calendar date: the path
    tells the service day. *)
Theorem file_date_identifies_service_day :
  forall a b sa sb,
    Calendar.valid a -> Calendar.valid b ->
    service_day a = Ok sa -> service_day b = Ok sb ->
    (get_current_file_date a = get_current_file_date b <-> date_of sa = date_of sb).
Proof.
  intros a b sa sb Ha Hb Hsa Hsb.
  rewrite !get_current_file_date_service_day, Hsa, Hsb, !bind_Ok.
  split.
  - intros H. injection H as H.
    change (Calendar.strftime_date sa = Calendar.strftime_date sb) in H.
    apply strftime_date_inj; [| |exact H].
    + apply (service_day_valid_date a sa Ha Hsa).
    + apply (service_day_valid_date b sb Hb Hsb).
  - intros H. rewrite (strftime_date_of sa sb H). reflexivity.
Qed.

Lemma makedirs_departures_file w c :
  fs w !! "departures" = Some (File c) ->
  makedirs "departures" w = Raise FileExistsError.
Proof.
  intros H. unfold makedirs.
  change (OsPath.chain "departures") with ["departures"].
  cbn [PyStr.is_empty log fs trace makedirs_chain]. rewrite H. reflexivity.
Qed.

Lemma save_to_csv_no_bucket now e r rs w :
  bucket now = Raise e -> save_to_csv now (r :: rs) w = Raise e.
Proof.
  intros Hb. unfold save_to_csv. rewrite get_current_file_date_bucket, Hb. reflexivity.
Qed.

Lemma save_to_csv_directory_is_file now d r rs w c :
  bucket now = Ok d -> fs w !! "departures" = Some (File c) ->
  save_to_csv now (r :: rs) w = Raise FileExistsError.
Proof.
  intros Hb Hf.
  rewrite (save_to_csv_unfold _ _ _ _ _ Hb), (makedirs_departures_file _ _ Hf).
  reflexivity.
Qed.

Lemma save_to_csv_target_is_directory now d r rs w :
  bucket now = Ok d ->
  (forall c, fs w !! "departures" <> Some (File c)) ->
  fs w !! daily_file d = Some Dir ->
  save_to_csv now (r :: rs) w = Raise IsADirectoryError.
Proof.
  intros Hb Hnf Hd.
  rewrite (save_to_csv_unfold _ _ _ _ _ Hb), (makedirs_departures _ Hnf), bind_Ok.
  unfold path_exists, to_csv_append, log, set_fs. cbn [fs trace].
  rewrite lookup_insert_ne by (symmetry; apply daily_file_not_directory).
  rewrite Hd. reflexivity.
Qed.

(** What a successful write did. *)
Lemma save_to_csv_inv now recs w w' :
  save_to_csv now recs w = Ok w' ->
  (recs = [] /\ w' = w)
  \/ exists d,
       bucket now = Ok d /\ recs <> []
       /\ (forall c, fs w !! "departures" <> Some (File c))
       /\ ((fs w !! daily_file d = None
            /\ w' = written d (COLUMNS :: DataFrame recs) (EvCreate (daily_file d)) w)
           \/ exists old,
                fs w !! daily_file d = Some (File old)
                /\ w' = written d (old ++ DataFrame recs) (EvAppend (daily_file d)) w).
Proof.
  intros H. destruct recs as [|r rs];
    [left; change (Ok w = Ok w') in H; injection H as <-; auto|].
  right. destruct (bucket now) as [d|e] eqn:Hb;
    [|rewrite (save_to_csv_no_bucket _ _ _ _ _ Hb) in H; discriminate].
  assert (Hne : r :: rs <> []) by discriminate.
  exists d. split; [reflexivity|]. split; [exact Hne|].
  assert (Hnf : forall c, fs w !! "departures" <> Some (File c)).
  { intros c Hc.
    rewrite (save_to_csv_directory_is_file _ _ _ _ _ _ Hb Hc) in H. discriminate. }
  split; [exact Hnf|].
  destruct (fs w !! daily_file d) as [[|old]|] eqn:Hfile.
  - rewrite (save_to_csv_target_is_directory _ _ _ _ _ Hb Hnf Hfile) in H. discriminate.
  - right. exists old. split; [reflexivity|].
    rewrite (save_to_csv_next _ _ _ _ _ Hne Hb Hnf Hfile) in H.
    injection H as <-. reflexivity.
  - left. split; [reflexivity|].
    rewrite (save_to_csv_first _ _ _ _ Hne Hb Hnf Hfile) in H.
    injection H as <-. reflexivity.
Qed.

Lemma written_keeps_files d content last w p old :
  (forall c, fs w !! "departures" <> Some (File c)) ->
  p <> daily_file d ->
  fs w !! p = Some (File old) ->
  fs (written d content last w) !! p = Some (File old).
Proof.
  intros Hnf Hp Hold. rewrite written_lookup_other; [exact Hold | exact Hp |].
  intros ->. apply (Hnf old Hold).
Qed.

Lemma save_to_csv_grows now recs w w' :
  save_to_csv now recs w = Ok w' ->
  (forall p old, fs w !! p = Some (File old) ->
     exists more, fs w' !! p = Some (File (old ++ more)))
  /\ (forall p, fs w !! p = Some Dir -> fs w' !! p = Some Dir).
Proof.
  intros H. apply save_to_csv_inv in H as [[_ ->]|(d & Hb & Hne & Hnf & Hcase)].
  { split; [intros p old Hp; exists []; rewrite List.app_nil_r; exact Hp | auto]. }
  assert (Hdir : forall content last p,
             fs w !! p = Some Dir -> fs w !! daily_file d <> Some Dir ->
             fs (written d content last w) !! p = Some Dir).
  { intros content last p Hp Hnd.
    destruct (decide (p = "departures")) as [->|Hp1];
      [apply written_lookup_directory|].
    rewrite written_lookup_other; [exact Hp| |exact Hp1]. intros ->. contradiction. }
  destruct Hcase as [[Hnew ->]|(old0 & Hold & ->)].
  - split.
    + intros p old Hp. exists [].
      rewrite List.app_nil_r. apply written_keeps_files; [exact Hnf| |exact Hp].
      intros ->. rewrite Hnew in Hp. discriminate.
    + intros p Hp. apply Hdir; [exact Hp | rewrite Hnew; discriminate].
  - split.
    + intros p old Hp. destruct (decide (p = daily_file d)) as [->|Hne'].
      * rewrite Hold in Hp. injection Hp as ->.
        exists (DataFrame recs). apply written_lookup_file.
      * exists []. rewrite List.app_nil_r.
        apply written_keeps_files; [exact Hnf | exact Hne' | exact Hp].
    + intros p Hp. apply Hdir; [exact Hp | rewrite Hold; discriminate].
Qed.

(** X9. Whatever the runs (any times, any records), as long as they all
    succeed: every file that was there keeps its rows, in place, as the
    beginning of what it holds afterwards, and every directory is still a
    directory.  Nothing is removed, truncated or rewritten. *)
Theorem daily_logs_are_append_only :
  forall runs w w',
    save_runs runs w = Ok w' ->
    (forall p old, fs w !! p = Some (File old) ->
       exists more, fs w' !! p = Some (File (old ++ more)))
    /\ (forall p, fs w !! p = Some Dir -> fs w' !! p = Some Dir).
Proof.
  induction runs as [|[now recs] runs IH]; intros w w' H.
  - injection H as <-. split; [|auto].
    intros p old Hp. exists []. rewrite List.app_nil_r. exact Hp.
  - simpl in H. apply bind_inv_Ok in H as (w1 & H1 & H2).
    destruct (save_to_csv_grows _ _ _ _ H1) as [Hf1 Hd1].
    destruct (IH _ _ H2) as [Hf2 Hd2].
    split; [|auto].
    intros p old Hp. destruct (Hf1 p old Hp) as (m1 & Hm1).
    destruct (Hf2 p _ Hm1) as (m2 & Hm2).
    exists (m1 ++ m2). rewrite Hm2, List.app_assoc. reflexivity.
Qed.

(** X10. With records to write, [save_to_csv] raises [FileExistsError] when
    [departures] is a regular file, and [IsADirectoryError] when the path
    of the daily file is a directory. *)
Theorem save_to_csv_blocked_paths :
  forall now (d : string) recs (w : world),
    recs <> [] ->
    bucket now = Ok d ->
    ((exists c, fs w !! "departures" = Some (File c)) ->
       save_to_csv now recs w = Raise FileExistsError)
    /\ ((forall c, fs w !! "departures" <> Some (File c)) ->
        fs w !! daily_file d = Some Dir ->
        save_to_csv now recs w = Raise IsADirectoryError).
Proof.
  intros now d recs w Hne Hb. destruct recs as [|r rs]; [congruence|]. split.
  - intros [c Hc]. apply (save_to_csv_directory_is_file _ _ _ _ _ _ Hb Hc).
  - intros Hnf Hd. apply (save_to_csv_target_is_directory _ _ _ _ _ Hb Hnf Hd).
Qed.

(** X11. Two runs of different service days, neither file being there at
    the start: each day gets its own file, with its own header row followed
    by its own records. *)
Theorem new_service_day_new_file :
  forall now1 now2 (d1 d2 : string) recs1 recs2 (w : world),
    bucket now1 = Ok d1 -> bucket now2 = Ok d2 -> d1 <> d2 ->
    recs1 <> [] -> recs2 <> [] ->
    (forall c, fs w !! "departures" <> Some (File c)) ->
    fs w !! daily_file d1 = None -> fs w !! daily_file d2 = None ->
    exists w',
      save_runs [(now1, recs1); (now2, recs2)] w = Ok w'
      /\ fs w' !! daily_file d1 = Some (File (COLUMNS :: DataFrame recs1))
      /\ fs w' !! daily_file d2 = Some (File (COLUMNS :: DataFrame recs2)).
Proof.
  intros now1 now2 d1 d2 recs1 recs2 w Hb1 Hb2 Hd Hne1 Hne2 Hnf Hnew1 Hnew2.
  assert (Hfiles : daily_file d2 <> daily_file d1)
    by (intros E; apply Hd; symmetry; apply daily_file_inj, E).
  set (w1 := written d1 (COLUMNS :: DataFrame recs1) (EvCreate (daily_file d1)) w).
  assert (Hnf1 : forall c, fs w1 !! "departures" <> Some (File c)).
  { intros c. unfold w1. rewrite written_lookup_directory. discriminate. }
  assert (Hnew2' : fs w1 !! daily_file d2 = None).
  { unfold w1. rewrite written_lookup_other;
      [exact Hnew2 | exact Hfiles | apply daily_file_not_directory]. }
  exists (written d2 (COLUMNS :: DataFrame recs2) (EvCreate (daily_file d2)) w1).
  split; [|split].
  - simpl. rewrite (save_to_csv_first _ _ _ _ Hne1 Hb1 Hnf Hnew1), bind_Ok.
    fold w1. rewrite (save_to_csv_first _ _ _ _ Hne2 Hb2 Hnf1 Hnew2'). reflexivity.
  - rewrite written_lookup_other;
      [apply written_lookup_file | congruence | apply daily_file_not_directory].
  - apply written_lookup_file.
Qed.

(** ** The run over the stations *)

Lemma scrape_departures_station_records flt web times key url :
  scrape_departures flt web (times url) url (station_name key)
  = Ok (station_records flt web times (key, url)).
Proof.
  unfold station_records. simpl. destruct (web url) as [soup|e] eqn:E.
  - apply scrape_departures_page, E.
  - apply (scrape_departures_fetch_error _ _ _ _ _ e), E.
Qed.

Lemma run_stations_flat_map flt web times stations : forall acc,
  run_stations flt web times stations acc
  = Ok (acc ++ flat_map (station_records flt web times) stations).
Proof.
  induction stations as [|[key url] stations IH]; intros acc; simpl.
  - rewrite List.app_nil_r. reflexivity.
  - rewrite scrape_departures_station_records, bind_Ok, IH, <- List.app_assoc.
    reflexivity.
Qed.

(** X12. [run] never stops at a station: what it hands to [save_to_csv] is
    the records of the stations in the order of the table, a station whose
    page cannot be fetched adding nothing. *)
Theorem run_writes_all_reachable_stations :
  forall flt web times save_time (w : world),
    run flt web times save_time w
    = save_to_csv save_time (flat_map (station_records flt web times) URLS) w.
Proof.
  intros flt web times save_time w.
  unfold run. rewrite run_stations_flat_map, bind_Ok. reflexivity.
Qed.

Lemma flat_map_nil {A B} (f : A -> list B) l :
  (forall x, In x l -> f x = []) -> flat_map f l = [].
Proof.
  induction l as [|x l IH]; intros H; [reflexivity|].
  simpl. rewrite (H x) by (left; reflexivity). apply IH.
  intros y Hy. apply H. right. exact Hy.
Qed.

(** X13. When no station gives a record (the site cannot be reached, or
    nothing passes the filter), [run] succeeds and leaves the file system
    and the trace of file operations as they were. *)
Theorem run_without_records_touches_nothing :
  forall flt web times save_time (w : world),
    (forall key url, In (key, url) URLS ->
       station_records flt web times (key, url) = []) ->
    run flt web times save_time w = Ok w.
Proof.
  intros flt web times save_time w H. unfold run.
  rewrite run_stations_flat_map, bind_Ok, flat_map_nil; [reflexivity|].
  intros [key url] Hin. apply H, Hin.
Qed.

Lemma collect_station flt clock name items r :
  In r (collect flt clock name items) -> station r = name.
Proof.
  intros Hin. apply collect_origin in Hin as (i & item & _ & E).
  apply scrape_item_inv in E as (d & _ & _ & Hb).
  unfold build_record in Hb. apply bind_inv_Ok in Hb as (l & _ & Hb).
  injection Hb as <-. reflexivity.
Qed.

Lemma run_stations_labels flt web times stations recs r :
  run_stations flt web times stations [] = Ok recs ->
  In r recs ->
  In (station r) (map (fun entry => station_name (fst entry)) stations).
Proof.
  rewrite run_stations_flat_map. intros Hrun Hin.
  injection Hrun as <-. simpl in Hin.
  apply List.in_flat_map in Hin as ([key url] & Hentry & Hr).
  unfold station_records in Hr. simpl in Hr.
  destruct (web url) as [soup|e]; [|contradiction].
  apply collect_station in Hr. rewrite Hr.
  apply (List.in_map (fun entry => station_name (fst entry)) stations (key, url) Hentry).
Qed.

(** X14. Every record a run collects carries one of the five display
    names, the title-cased keys of the table. *)
Theorem run_records_carry_display_names :
  forall flt web times recs r,
    run_stations flt web times URLS [] = Ok recs ->
    In r recs ->
    In (station r) STATION_NAMES.
Proof.
  intros flt web times recs r Hrun Hin.
  change STATION_NAMES with (map (fun entry => station_name (fst entry)) URLS).
  apply (run_stations_labels _ _ _ _ _ _ Hrun Hin).
Qed.

(** ** The properties above on sample inputs *)

Lemma filtered_page_only_matching_destinations_witness :
  PyStr.contains (PyStr.lower "newark") (PyStr.lower (destination Sample.newark_record))
  = true.
Proof.
  apply (filtered_page_only_matching_destinations "newark"
           (Sample.web_of (Sample.page_of [Sample.plain_entry; Sample.newark_entry]))
           Sample.steady "u" "Newark" [Sample.newark_record]).
  - discriminate.
  - vm_compute. reflexivity.
  - left. reflexivity.
Defined.

(** With a clock that moves on, the second entry of a page gets the second
    reading. *)
Lemma records_carry_station_and_timestamp_witness :
  station Sample.newark_record_31 = "Newark"
  /\ exists soup i item,
       Sample.web_of (Sample.page_of [Sample.plain_entry; Sample.newark_entry]) "u"
       = Ok soup
       /\ nth_error (departure_items soup) i = Some item
       /\ scrape_item None (Sample.ticking i) "Newark" item
          = Ok (Some Sample.newark_record_31)
       /\ timestamp Sample.newark_record_31
          = Calendar.strftime_timestamp (Sample.ticking i).
Proof.
  apply (records_carry_station_and_timestamp None
           (Sample.web_of (Sample.page_of [Sample.plain_entry; Sample.newark_entry]))
           Sample.ticking "u" "Newark" [Sample.record; Sample.newark_record_31]).
  - vm_compute. reflexivity.
  - right. left. reflexivity.
Defined.

(** The records of one page need not share their time stamp. *)
Example time_stamps_follow_the_clock :
  scrape_departures None
    (Sample.web_of (Sample.page_of [Sample.plain_entry; Sample.newark_entry]))
    Sample.ticking "u" "Newark"
  = Ok [Sample.record; Sample.newark_record_31]
  /\ timestamp Sample.record = "2025-03-01 08:15:30"
  /\ timestamp Sample.newark_record_31 = "2025-03-01 08:15:31".
Proof. repeat split. Qed.

Lemma page_record_count_witness :
  exists recs,
    scrape_departures (Some "newark")
      (Sample.web_of (Sample.page_of [Sample.plain_entry; Sample.broken_entry;
                                      Sample.newark_entry]))
      Sample.steady "u" "Newark" = Ok recs
    /\ List.length recs
       = List.length
           (List.filter (yields_record (Some "newark"))
              (departure_items
                 (Sample.page_of [Sample.plain_entry; Sample.broken_entry;
                                  Sample.newark_entry])))
    /\ List.length recs
       <= List.length
            (departure_items
               (Sample.page_of [Sample.plain_entry; Sample.broken_entry;
                                Sample.newark_entry])).
Proof.
  apply (page_record_count (Some "newark")
           (Sample.web_of (Sample.page_of [Sample.plain_entry; Sample.broken_entry;
                                           Sample.newark_entry]))
           Sample.steady "u" "Newark").
  reflexivity.
Defined.

Lemma optional_fields_default_to_empty_witness :
  ((forall t, In t (Soup.strings_of Sample.bare_entry) ->
      PyStr.contains "Train" t = false) ->
     train_number Sample.bare_record = EmptyString)
  /\ ((forall t, In t (Soup.strings_of Sample.bare_entry) ->
         PyStr.contains "Track" t = false) ->
      track Sample.bare_record = EmptyString)
  /\ (Soup.find "strong" [("class", Is "h2")] Sample.bare_entry = None ->
      departure_time Sample.bare_record = EmptyString)
  /\ (Soup.find "strong" [("class", Is "h3")] Sample.bare_entry = None ->
      status Sample.bare_record = EmptyString).
Proof.
  apply (optional_fields_default_to_empty None Sample.morning "Newark"
           Sample.bare_entry Sample.bare_record).
  vm_compute. reflexivity.
Defined.

Lemma record_text_fields_are_trimmed_witness :
  trimmed (destination Sample.newark_record) /\ trimmed (line Sample.newark_record)
  /\ trimmed (train_number Sample.newark_record)
  /\ trimmed (departure_time Sample.newark_record)
  /\ trimmed (status Sample.newark_record) /\ trimmed (track Sample.newark_record).
Proof.
  apply (record_text_fields_are_trimmed None
           (Sample.web_of (Sample.page_of [Sample.newark_entry]))
           Sample.steady "u" "Newark" [Sample.newark_record]).
  - vm_compute. reflexivity.
  - left. reflexivity.
Defined.

Lemma unknown_colours_count_as_no_data_witness :
  parse_occupancy Sample.grey_entry
  = mk_occupancy (List.length (item_sections Sample.grey_entry)) 0 0 0
      (List.length (item_dots Sample.grey_entry)).
Proof.
  apply (unknown_colours_count_as_no_data Sample.grey_entry).
  intros d Hd. vm_compute in Hd.
  destruct Hd as [<-|[<-|[]]]; vm_compute; reflexivity.
Defined.

(** The morning of 2025-03-01 and half past one in the following night
    belong to the same service day. *)
Lemma file_date_identifies_service_day_witness :
  get_current_file_date Sample.morning = get_current_file_date Sample.after_midnight
  <-> date_of Sample.morning = date_of (mk_datetime 2025 3 1 1 30 0).
Proof.
  apply (file_date_identifies_service_day Sample.morning Sample.after_midnight
           Sample.morning (mk_datetime 2025 3 1 1 30 0)).
  - vm_compute. intuition discriminate.
  - vm_compute. intuition discriminate.
  - vm_compute. reflexivity.
  - vm_compute. reflexivity.
Defined.

Lemma daily_logs_are_append_only_witness :
  exists w',
    save_runs [(Sample.after_midnight, [Sample.later_record]);
               (Sample.next_morning, [Sample.record])] Sample.used = Ok w'
    /\ (forall p old, fs Sample.used !! p = Some (File old) ->
          exists more, fs w' !! p = Some (File (old ++ more)))
    /\ (forall p, fs Sample.used !! p = Some Dir -> fs w' !! p = Some Dir).
Proof.
  eexists. split; [vm_compute; reflexivity|].
  apply (daily_logs_are_append_only
           [(Sample.after_midnight, [Sample.later_record]);
            (Sample.next_morning, [Sample.record])] Sample.used).
  vm_compute. reflexivity.
Defined.

Lemma save_to_csv_blocked_paths_witness :
  ((exists c, fs Sample.blocked !! "departures" = Some (File c)) ->
     save_to_csv Sample.morning [Sample.record] Sample.blocked = Raise FileExistsError)
  /\ ((forall c, fs Sample.blocked !! "departures" <> Some (File c)) ->
      fs Sample.blocked !! daily_file "2025-03-01" = Some Dir ->
      save_to_csv Sample.morning [Sample.record] Sample.blocked
      = Raise IsADirectoryError).
Proof.
  apply (save_to_csv_blocked_paths Sample.morning "2025-03-01" [Sample.record]
           Sample.blocked).
  - discriminate.
  - vm_compute. reflexivity.
Defined.

Lemma new_service_day_new_file_witness :
  exists w',
    save_runs [(Sample.morning, [Sample.record]);
               (Sample.next_morning, [Sample.later_record])] Sample.fresh = Ok w'
    /\ fs w' !! daily_file "2025-03-01"
       = Some (File (COLUMNS :: DataFrame [Sample.record]))
    /\ fs w' !! daily_file "2025-03-02"
       = Some (File (COLUMNS :: DataFrame [Sample.later_record])).
Proof.
  apply (new_service_day_new_file Sample.morning Sample.next_morning
           "2025-03-01" "2025-03-02" [Sample.record] [Sample.later_record]
           Sample.fresh).
  - vm_compute. reflexivity.
  - vm_compute. reflexivity.
  - discriminate.
  - discriminate.
  - discriminate.
  - intros c. vm_compute. discriminate.
  - vm_compute. reflexivity.
  - vm_compute. reflexivity.
Defined.

Lemma run_without_records_touches_nothing_witness :
  run None Sample.offline (fun _ => Sample.steady) Sample.morning Sample.used
  = Ok Sample.used.
Proof.
  apply (run_without_records_touches_nothing None Sample.offline
           (fun _ => Sample.steady) Sample.morning Sample.used).
  intros key url _. reflexivity.
Defined.

Lemma run_records_carry_display_names_witness :
  In (station Sample.maplewood_record) STATION_NAMES.
Proof.
  eapply (run_records_carry_display_names None
            (Sample.web_of (Sample.page_of [Sample.newark_entry]))
            (fun _ => Sample.steady) _ Sample.maplewood_record).
  - vm_compute. reflexivity.
  - do 4 right. left. reflexivity.
Defined.

(** A run with one station out of reach: the other four are written, in
    the order of the table. *)
Example run_with_one_station_down :
  exists w',
    run None
      (fun url => if String.eqb url "https://www.njtransit.com/dv-to/Newark%20Penn%20Station"
                  then Raise RequestException
                  else Ok (Sample.page_of [Sample.bare_entry]))
      (fun _ => Sample.steady) Sample.morning Sample.fresh = Ok w'
    /\ exists rows,
         fs w' !! "departures/departures_2025-03-01.csv" = Some (File (COLUMNS :: rows))
         /\ map (fun row => nth 1 row EmptyString) rows
            = ["Secaucus Upper"; "Secaucus Lower"; "Watsessing"; "Maplewood"].
Proof.
  eexists. split; [vm_compute; reflexivity|].
  eexists. split; vm_compute; reflexivity.
Qed.

(** ** The service day as a window, and a whole run *)

(** X15. A moment at 04:00 or later and a moment before 04:00 on the next
    calendar day get the same path from [get_current_file_date]: the night
    after a day is not split from it. *)
Theorem overnight_moments_share_the_file :
  forall a b : datetime,
    Calendar.valid a -> Calendar.valid b ->
    (4 <= hour a)%Z -> (hour b < 4)%Z ->
    Calendar.toordinal b = (Calendar.toordinal a + 1)%Z ->
    get_current_file_date b = get_current_file_date a.
Proof.
  intros a b Ha Hb Hha Hhb Hnext.
  pose proof (toordinal_positive a (proj1 Ha)) as Hpos.
  destruct (minus_one_day_spec b Hb ltac:(lia)) as (q & Hq & Hvq & Hoq).
  rewrite !get_current_file_date_service_day. unfold service_day.
  destruct (Z.ltb_spec (hour b) 4) as [_|]; [|lia].
  destruct (Z.ltb_spec (hour a) 4) as [|_]; [lia|].
  rewrite Hq, !bind_Ok. simpl. do 2 f_equal.
  apply strftime_date_of, toordinal_inj; [apply Hvq | apply Ha | lia].
Qed.

Lemma overnight_moments_share_the_file_witness :
  get_current_file_date Sample.after_midnight = get_current_file_date Sample.morning.
Proof.
  apply (overnight_moments_share_the_file Sample.morning Sample.after_midnight).
  - vm_compute. intuition discriminate.
  - vm_compute. intuition discriminate.
  - vm_compute. discriminate.
  - vm_compute. reflexivity.
  - vm_compute. reflexivity.
Defined.

(** X16. A run that collects at least one record, on a file system where
    the daily file of the service day is not there yet: the run creates the
    file, which holds the header row followed by the records of the
    stations in the order of the table; no other file changes. *)
Theorem run_creates_the_daily_file :
  forall flt web times save_time (d : string) (w : world),
    flat_map (station_records flt web times) URLS <> [] ->
    bucket save_time = Ok d ->
    (forall c, fs w !! "departures" <> Some (File c)) ->
    fs w !! daily_file d = None ->
    exists w',
      run flt web times save_time w = Ok w'
      /\ fs w' !! daily_file d
         = Some (File (COLUMNS
                         :: DataFrame (flat_map (station_records flt web times) URLS)))
      /\ fs w' !! "departures" = Some Dir
      /\ forall p, p <> daily_file d -> p <> "departures" -> fs w' !! p = fs w !! p.
Proof.
  intros flt web times save_time d w Hne Hb Hnf Hnew.
  eexists. split.
  - unfold run. rewrite run_stations_flat_map, bind_Ok.
    apply (save_to_csv_first _ _ _ _ Hne Hb Hnf Hnew).
  - split; [apply written_lookup_file|].
    split; [apply written_lookup_directory|].
    intros p. apply written_lookup_other.
Qed.

Lemma run_creates_the_daily_file_witness :
  exists w',
    run None (Sample.web_of (Sample.page_of [Sample.bare_entry]))
      (fun _ => Sample.steady) Sample.morning Sample.fresh = Ok w'
    /\ fs w' !! daily_file "2025-03-01"
       = Some (File (COLUMNS
                       :: DataFrame
                            (flat_map
                               (station_records None
                                  (Sample.web_of (Sample.page_of [Sample.bare_entry]))
                                  (fun _ => Sample.steady)) URLS)))
    /\ fs w' !! "departures" = Some Dir
    /\ forall p, p <> daily_file "2025-03-01" -> p <> "departures" ->
                 fs w' !! p = fs Sample.fresh !! p.
Proof.
  apply (run_creates_the_daily_file None
           (Sample.web_of (Sample.page_of [Sample.bare_entry]))
           (fun _ => Sample.steady) Sample.morning "2025-03-01" Sample.fresh).
  - vm_compute. discriminate.
  - vm_compute. reflexivity.
  - intros c. vm_compute. discriminate.
  - vm_compute. reflexivity.
Defined.
